(** * SynapseBot: the airdrop workflow, embedded and checked against its specification

    The Python sources (main.py, src/airdrop.py, src/browser.py,
    src/tasks/base.py, src/tasks/telegram.py, src/utils/ai.py,
    src/utils/helpers.py, config/settings.py) are embedded as functions in a
    state-and-exception monad over an explicit world.  Everything the program
    only consumes (the Selenium driver, the OpenAI client, the clock, the random
    generator, the process environment) is an interface [Driver] whose
    operations are arbitrary; theorems are stated for every implementation of
    it, and a small scripted implementation is used for concrete runs. *)

From Stdlib Require Import String Ascii ZArith QArith Lia Bool List.
From stdpp Require Import base option list strings gmap.
Import ListNotations.

Local Open Scope string_scope.
Local Open Scope list_scope.
Local Open Scope nat_scope.

(** ** Python strings *)

Module Str.

(** [str.lower] on ASCII text: the letters A-Z are shifted, every other
    character is kept. *)
Definition ascii_lower (c : ascii) : ascii :=
  let n := nat_of_ascii c in
  if (65 <=? n) && (n <=? 90) then ascii_of_nat (n + 32) else c.

Fixpoint lower (s : string) : string :=
  match s with
  | EmptyString => EmptyString
  | String c r => String (ascii_lower c) (lower r)
  end.

(** [s.startswith(p)] *)
Fixpoint startswith (p s : string) : bool :=
  match p, s with
  | EmptyString, _ => true
  | String _ _, EmptyString => false
  | String a p', String b s' => if Ascii.eqb a b then startswith p' s' else false
  end.

(** [sub in s] *)
Fixpoint contains (sub s : string) : bool :=
  startswith sub s ||
  match s with
  | EmptyString => false
  | String _ r => contains sub r
  end.

(** Truth value of a string: the empty string is falsy. *)
Definition truthy (s : string) : bool :=
  match s with EmptyString => false | String _ _ => true end.

(** Truth value of an optional string ([None] and [""] are falsy). *)
Definition opt_truthy (o : option string) : bool :=
  match o with None => false | Some s => truthy s end.

(** [o or d] for an optional string. *)
Definition or_else (o : option string) (d : string) : string :=
  match o with
  | Some (String c r) => String c r
  | _ => d
  end.

(** [n or d] for an optional integer ([None] and [0] are falsy). *)
Definition int_or_else (o : option Z) (d : Z) : Z :=
  match o with
  | Some n => if Z.eqb n 0 then d else n
  | None => d
  end.

Definition digit (n : nat) : ascii := ascii_of_nat (48 + n mod 10).

(** Decimal rendering of a natural number, the way [%d] prints it. *)
Fixpoint dec_fuel (fuel n : nat) : string :=
  match fuel with
  | O => String (digit n) EmptyString
  | S f =>
      if n <? 10 then String (digit n) EmptyString
      else dec_fuel f (n / 10) ++ String (digit n) EmptyString
  end.

Definition dec (n : nat) : string := dec_fuel n n.

(** [%02d] *)
Definition dec2 (n : nat) : string :=
  if n <? 10 then String "0" (dec n) else dec n.

Definition of_Z (z : Z) : string :=
  match z with
  | Z0 => "0"
  | Zpos p => dec (Pos.to_nat p)
  | Zneg p => String "-" (dec (Pos.to_nat p))
  end.

Definition is_digit (c : ascii) : bool :=
  let n := nat_of_ascii c in (48 <=? n) && (n <=? 57).

End Str.

(** ** Exceptions and results *)

(** The exception classes the sources name in their [except] clauses; every
    other subclass of [Exception] is [OtherException].  The argument is
    [str(e)]. *)
Inductive exn : Type :=
| NoSuchElementException (msg : string)
| JSONDecodeError (msg : string)
| FileNotFoundError (msg : string)
| OtherException (msg : string).

Definition exn_str (e : exn) : string :=
  match e with
  | NoSuchElementException m | JSONDecodeError m
  | FileNotFoundError m | OtherException m => m
  end.

Inductive result (A : Type) : Type :=
| Ok (a : A)
| Raise (e : exn).
Arguments Ok {A} a.
Arguments Raise {A} e.

(** ** The world *)

(** A window handle: an opaque, non-empty identifier issued by the driver. *)
Inductive handle : Type := Handle (id : nat).

Definition handle_eqb (a b : handle) : bool :=
  match a, b with Handle x, Handle y => Nat.eqb x y end.

(** A [WebElement] reference. *)
Inductive elem : Type := Elem (id : nat).

Inductive level : Type := DEBUG | INFO | WARNING | ERROR.

(** One completion record, as stored in completed_airdrops.json. *)
Record completion_record : Type := {
  completed_date : string;
  status : string
}.

(** The text of the backing file, seen through [json.load]: either it does not
    parse, or it is the object that [json.dump] wrote. *)
Inductive document : Type :=
| Malformed
| JsonObject (m : gmap string completion_record).

(** A fault of a write.  Either [open(path, 'w')] (or [os.makedirs]) raises,
    and nothing has changed; or [open] succeeds, which truncates the file, and
    [json.dump] or the closing of the file raises afterwards: the old content
    is gone and the file holds whatever had reached it, [remains]. *)
Inductive write_failure : Type :=
| OpenFails (e : exn)
| DumpFails (e : exn) (remains : document).

(** The part of the file system the program touches: the data directory, the
    completion file in it, and the faults reading and writing answer with. *)
Record disk : Type := {
  data_dir_exists : bool;
  completed_file : option document;     (* None: os.path.exists is False *)
  read_fault : option exn;              (* raised by open(path, 'r') *)
  write_fault : option write_failure
}.

(** [time.localtime()], fields in the ranges the C library guarantees. *)
Record struct_time : Type := {
  tm_year : Z; tm_mon : Z; tm_mday : Z;
  tm_hour : Z; tm_min : Z; tm_sec : Z;
  tm_range :
    ((1000 <=? tm_year) && (tm_year <=? 9999) &&
     (1 <=? tm_mon) && (tm_mon <=? 12) && (1 <=? tm_mday) && (tm_mday <=? 31) &&
     (0 <=? tm_hour) && (tm_hour <=? 23) && (0 <=? tm_min) && (tm_min <=? 59) &&
     (0 <=? tm_sec) && (tm_sec <=? 61))%Z = true
}.

Section WithExternalState.

(** State owned by the collaborators: page contents, random generator,
    clock, environment variables, the remote text-generation service. *)
Context {P : Type}.

Record world : Type := {
  windows : list handle;                               (* driver.window_handles *)
  focus : handle;                                      (* driver.current_window_handle *)
  ext : P;
  fs : disk;
  openai_api_key : option string;                      (* openai.api_key *)
  completed_airdrops : gmap string completion_record;  (* AirdropManager.completed_airdrops *)
  log : list (level * string)
}.

Definition set_windows (l : list handle) (w : world) : world :=
  {| windows := l; focus := focus w; ext := ext w; fs := fs w;
     openai_api_key := openai_api_key w;
     completed_airdrops := completed_airdrops w; log := log w |}.
Definition set_focus (h : handle) (w : world) : world :=
  {| windows := windows w; focus := h; ext := ext w; fs := fs w;
     openai_api_key := openai_api_key w;
     completed_airdrops := completed_airdrops w; log := log w |}.
Definition set_ext (p : P) (w : world) : world :=
  {| windows := windows w; focus := focus w; ext := p; fs := fs w;
     openai_api_key := openai_api_key w;
     completed_airdrops := completed_airdrops w; log := log w |}.
Definition set_fs (d : disk) (w : world) : world :=
  {| windows := windows w; focus := focus w; ext := ext w; fs := d;
     openai_api_key := openai_api_key w;
     completed_airdrops := completed_airdrops w; log := log w |}.
Definition set_api_key (k : option string) (w : world) : world :=
  {| windows := windows w; focus := focus w; ext := ext w; fs := fs w;
     openai_api_key := k;
     completed_airdrops := completed_airdrops w; log := log w |}.
Definition set_completed (m : gmap string completion_record) (w : world) : world :=
  {| windows := windows w; focus := focus w; ext := ext w; fs := fs w;
     openai_api_key := openai_api_key w;
     completed_airdrops := m; log := log w |}.
Definition add_log (e : level * string) (w : world) : world :=
  {| windows := windows w; focus := focus w; ext := ext w; fs := fs w;
     openai_api_key := openai_api_key w;
     completed_airdrops := completed_airdrops w; log := log w ++ [e] |}.

(** *** The monad: state passing, with Python exceptions *)

Definition M (A : Type) : Type := world -> result A * world.

Definition ret {A} (a : A) : M A := fun w => (Ok a, w).

Definition bind {A B} (m : M A) (k : A -> M B) : M B :=
  fun w => match m w with
           | (Ok a, w') => k a w'
           | (Raise e, w') => (Raise e, w')
           end.

Definition raise {A} (e : exn) : M A := fun w => (Raise e, w).

(** [try: m  except ...:], the handler answering [None] for an exception
    that no clause matches (it then propagates). *)
Definition try_except {A} (m : M A) (h : exn -> option (M A)) : M A :=
  fun w => match m w with
           | (Ok a, w') => (Ok a, w')
           | (Raise e, w') =>
               match h e with
               | Some k => k w'
               | None => (Raise e, w')
               end
           end.

Definition logger (l : level) (msg : string) : M unit :=
  fun w => (Ok tt, add_log (l, msg) w).

Definition get_world : M world := fun w => (Ok w, w).

End WithExternalState.

Arguments world P : clear implicits.
Arguments M P A : clear implicits.

Declare Scope py_scope.
Delimit Scope py_scope with py.
Notation "x <- m ;; k" := (bind m (fun x => k))
  (at level 100, m at next level, right associativity) : py_scope.
Notation "m ;; k" := (bind m (fun _ => k))
  (at level 100, right associativity) : py_scope.

(** ** The external collaborators *)

(** A page-level operation of the driver: it runs in the focused window and may
    change the external state or raise. *)
Definition pageop (P A : Type) : Type := handle -> P -> result A * P.

(** The capabilities the program consumes.  Nothing is assumed of them: each
    may answer anything, and may raise wherever Python lets it. *)
Class Driver (P : Type) : Type := {
  (* selenium WebElement *)
  element_find_element : elem -> string -> pageop P elem;
  element_find_elements : elem -> string -> pageop P (list elem);
  element_text : elem -> pageop P string;
  element_get_attribute : elem -> string -> pageop P (option string);
  (* element.click(): may also open or close windows *)
  element_click : elem -> handle -> list handle -> P -> result unit * list handle * P;
  (* selenium WebDriver *)
  (* driver.switch_to.window(target) and driver.close(), given the focused
     window and the open ones: whether the command goes through *)
  driver_switch_to_window : handle -> handle -> list handle -> P -> result unit * P;
  driver_close_window : handle -> list handle -> P -> result unit * P;
  driver_get : string -> pageop P unit;
  until_presence_of_element_located : Z -> string -> pageop P elem;
  until_presence_of_all_elements_located : Z -> string -> pageop P (list elem);
  driver_current_url : pageop P string;
  driver_page_source : pageop P string;
  driver_execute_script : string -> pageop P unit;
  (* random, time, os *)
  random_randint : Z -> Z -> P -> Z * P;
  random_random : P -> Q * P;
  sleep_uniform : Q -> Q -> P -> P;     (* time.sleep(random.uniform(a, b)) *)
  time_sleep : Q -> P -> P;
  time_localtime : P -> struct_time;
  os_getenv : string -> P -> option string;
  (* openai.ChatCompletion.create(...).choices[0].message.content *)
  chat_completion_create :
    option string -> string -> string -> Z -> P -> result string * P
}.

(** ** config/settings.py *)

Module Settings.

Definition BROWSER_TIMEOUT : Z := 30.

Definition WAIT_TIMES (wait_type : string) : option (Q * Q) :=
  if String.eqb wait_type "short" then Some (1 # 1, 3 # 1)%Q
  else if String.eqb wait_type "medium" then Some (2 # 1, 5 # 1)%Q
  else if String.eqb wait_type "long" then Some (3 # 1, 7 # 1)%Q
  else if String.eqb wait_type "page_load" then Some (3 # 1, 6 # 1)%Q
  else if String.eqb wait_type "human_like" then Some (1 # 2, 2 # 1)%Q
  else None.

Definition all_airdrops_tab : string := "//div[text()='All airdrops']".
Definition airdrop_cards : string := "//div[contains(@class, 'airdrop-card')]".
Definition task_items : string :=
  "//div[contains(@class, 'task-item') and contains(., '(Mandatory)')]".
Definition telegram_button : string :=
  ".//a[contains(@href, 'telegram.org') or contains(@href, 't.me')]".
Definition task_completed : string :=
  ".//div[contains(@class, 'completed') or contains(@class, 'check')]".

Definition DATA_DIR : string := "data".
Definition COMPLETED_AIRDROPS_FILE : string := "data/completed_airdrops.json".

Definition OPENAI_MODEL : string := "gpt-3.5-turbo".
Definition OPENAI_MAX_TOKENS : Z := 150.

End Settings.

Section Program.

Context {P : Type} `{Driver P}.

Local Open Scope py_scope.

(** A page-level operation, run in the focused window. *)
Definition page {A} (op : pageop P A) : M P A :=
  fun w => let '(r, p) := op (focus w) (ext w) in (r, set_ext p w).

(** An operation of the collaborators that cannot raise. *)
Definition external {A} (op : P -> A * P) : M P A :=
  fun w => let '(a, p) := op (ext w) in (Ok a, set_ext p w).

Definition external_ (op : P -> P) : M P unit :=
  fun w => (Ok tt, set_ext (op (ext w)) w).

(** *** The file system, as [os] and [open] present it *)

Definition os_path_exists_file : M P bool :=
  fun w => (Ok (bool_decide (is_Some (completed_file (fs w)))), w).

Definition os_path_exists_dir : M P bool :=
  fun w => (Ok (data_dir_exists (fs w)), w).

Definition os_makedirs : M P unit :=
  fun w =>
    match write_fault (fs w) with
    | Some (OpenFails e) => (Raise e, w)
    | _ =>
        (Ok tt,
         set_fs {| data_dir_exists := true; completed_file := completed_file (fs w);
                   read_fault := read_fault (fs w);
                   write_fault := write_fault (fs w) |} w)
    end.

(** [with open(path, 'r') as f: json.load(f)] *)
Definition open_json_load : M P (gmap string completion_record) :=
  fun w =>
    match read_fault (fs w) with
    | Some e => (Raise e, w)
    | None =>
        match completed_file (fs w) with
        | None => (Raise (FileNotFoundError "No such file or directory"), w)
        | Some Malformed => (Raise (JSONDecodeError "Expecting value"), w)
        | Some (JsonObject m) => (Ok m, w)
        end
    end.

(** [with open(path, 'w') as f: json.dump(data, f, indent=2)]: [open] fails
    before anything changes (a fault of its own, or a missing directory);
    once it has succeeded the old content is gone, and the file holds the
    data, or, when the dump or the closing raises, what was left of it. *)
Definition open_json_dump (data : gmap string completion_record) : M P unit :=
  fun w =>
    let holding (content : document) :=
      set_fs {| data_dir_exists := true;
                completed_file := Some content;
                read_fault := read_fault (fs w);
                write_fault := write_fault (fs w) |} w in
    match write_fault (fs w) with
    | Some (OpenFails e) => (Raise e, w)
    | fault =>
        if data_dir_exists (fs w) then
          match fault with
          | Some (DumpFails e remains) => (Raise e, holding remains)
          | _ => (Ok tt, holding (JsonObject data))
          end
        else (Raise (FileNotFoundError "No such file or directory"), w)
    end.

(** [time.strftime('%Y-%m-%d %H:%M:%S')] *)
Definition format_time (t : struct_time) : string :=
  Str.dec (Z.to_nat (tm_year t)) +:+ "-" +:+ Str.dec2 (Z.to_nat (tm_mon t)) +:+ "-" +:+
  Str.dec2 (Z.to_nat (tm_mday t)) +:+ " " +:+ Str.dec2 (Z.to_nat (tm_hour t)) +:+ ":" +:+
  Str.dec2 (Z.to_nat (tm_min t)) +:+ ":" +:+ Str.dec2 (Z.to_nat (tm_sec t)).

Definition time_strftime : M P string :=
  fun w => (Ok (format_time (time_localtime (ext w))), w).

(** *** src/utils/helpers.py *)

Definition create_dir_if_not_exists (dir_path : string) : M P bool :=
  ex <- os_path_exists_dir ;;
  if negb ex then
    try_except
      (os_makedirs ;;
       logger INFO ("Created directory: " +:+ dir_path) ;;
       ret true)
      (fun e => Some (logger ERROR ("Error creating directory " +:+ dir_path +:+ ": "
                                      +:+ exn_str e) ;;
                      ret false))
  else ret true.

Definition save_json (data : gmap string completion_record) (file_path : string)
  : M P bool :=
  try_except
    (_ <- create_dir_if_not_exists Settings.DATA_DIR ;;
     open_json_dump data ;;
     logger DEBUG ("Saved data to " +:+ file_path) ;;
     ret true)
    (fun e => Some (logger ERROR ("Error saving JSON to " +:+ file_path +:+ ": "
                                    +:+ exn_str e) ;;
                    ret false)).

Definition load_json (file_path : string)
    (default : option (gmap string completion_record))
  : M P (gmap string completion_record) :=
  let default := match default with Some d => d | None => ∅ end in
  ex <- os_path_exists_file ;;
  if negb ex then
    logger DEBUG ("File not found: " +:+ file_path +:+ ", returning default value") ;;
    ret default
  else
    try_except open_json_load
      (fun e =>
         match e with
         | JSONDecodeError _ =>
             Some (logger ERROR ("Error decoding JSON from " +:+ file_path) ;;
                   ret default)
         | _ =>
             Some (logger ERROR ("Error loading JSON from " +:+ file_path +:+ ": "
                                   +:+ exn_str e) ;;
                   ret default)
         end).

Definition get_completed_airdrops : M P (gmap string completion_record) :=
  load_json Settings.COMPLETED_AIRDROPS_FILE (Some ∅).

Definition mark_airdrop_completed (airdrop_name : string) (status : string)
  : M P bool :=
  completed <- get_completed_airdrops ;;
  now <- time_strftime ;;
  let completed :=
    <[airdrop_name := {| completed_date := now; status := status |}]> completed in
  save_json completed Settings.COMPLETED_AIRDROPS_FILE.

Definition is_airdrop_completed (airdrop_name : string) : M P bool :=
  completed <- get_completed_airdrops ;;
  ret (bool_decide (is_Some (completed !! airdrop_name))).

(** *** src/utils/ai.py *)

Definition setup_openai : M P bool :=
  w <- get_world ;;
  let api_key := os_getenv "OPENAI_API_KEY" (ext w) in
  if negb (Str.opt_truthy api_key) then
    logger ERROR "OpenAI API key not found in environment variables" ;;
    ret false
  else
    (fun w => (Ok tt, set_api_key api_key w)) ;;
    ret true.

Definition get_ai_assistance (prompt : string) (model : option string)
    (max_tokens : option Z) : M P string :=
  let model := Str.or_else model Settings.OPENAI_MODEL in
  let max_tokens := Str.int_or_else max_tokens Settings.OPENAI_MAX_TOKENS in
  ok <- setup_openai ;;
  if negb ok then ret "AI assistance unavailable - missing API key"
  else
    try_except
      (fun w =>
         let '(r, p) :=
           chat_completion_create (openai_api_key w) model prompt max_tokens (ext w) in
         (r, set_ext p w))
      (fun e =>
         Some (logger ERROR ("Error getting response from OpenAI: " +:+ exn_str e) ;;
               ret ("Error getting AI assistance: " +:+ exn_str e))).

(** *** src/browser.py: BrowserManager *)

(** The driver's window primitives. *)
Definition current_window_handle : M P handle := fun w => (Ok (focus w), w).
Definition window_handles : M P (list handle) := fun w => (Ok (windows w), w).
(** NoSuchWindowException: the handle names no open window. *)
Definition no_such_window : exn := OtherException "no such window".

(** [driver.switch_to.window(h)] raises when [h] is not open, and whenever the
    driver refuses the command; otherwise [h] is focused. *)
Definition switch_to_window (h : handle) : M P unit :=
  fun w =>
    if existsb (handle_eqb h) (windows w) then
      match driver_switch_to_window h (focus w) (windows w) (ext w) with
      | (Ok _, p) => (Ok tt, set_focus h (set_ext p w))
      | (Raise e, p) => (Raise e, set_ext p w)
      end
    else (Raise no_such_window, w).

(** [driver.close()] closes the focused window; it raises when that window is
    already gone, and whenever the driver refuses the command. *)
Definition driver_close : M P unit :=
  fun w =>
    if existsb (handle_eqb (focus w)) (windows w) then
      match driver_close_window (focus w) (windows w) (ext w) with
      | (Ok _, p) =>
          (Ok tt,
           set_windows (List.filter (fun h => negb (handle_eqb h (focus w))) (windows w))
             (set_ext p w))
      | (Raise e, p) => (Raise e, set_ext p w)
      end
    else (Raise no_such_window, w).
(** [driver.quit()] closes every window. *)
Definition driver_quit : M P unit := fun w => (Ok tt, set_windows [] w).

Definition random_wait (wait_type : string) : M P unit :=
  let '(min_wait, max_wait) := default (1 # 1, 3 # 1)%Q (Settings.WAIT_TIMES wait_type) in
  external_ (sleep_uniform min_wait max_wait).

Definition get (url : string) : M P unit :=
  logger INFO ("Navigating to: " +:+ url) ;;
  page (driver_get url) ;;
  random_wait "page_load".

(** [wait_for_element(By.XPATH, value, timeout, condition)]; [condition] is
    one of the two expected conditions of the interface. *)
Definition wait_for_element {A} (condition : Z -> string -> pageop P A)
    (value : string) (timeout : option Z) : M P (option A) :=
  let timeout := Str.int_or_else timeout Settings.BROWSER_TIMEOUT in
  try_except
    (element <- page (condition timeout value) ;;
     ret (Some element))
    (fun e =>
       Some (logger WARNING ("Element not found: xpath=" +:+ value +:+ ", Error: "
                               +:+ exn_str e) ;;
             ret None)).

Definition wait_for_elements (value : string) (timeout : option Z)
  : M P (option (list elem)) :=
  wait_for_element until_presence_of_all_elements_located value timeout.

(** [element.click()] *)
Definition click_element (element : elem) : M P unit :=
  fun w =>
    let '(r, ws, p) := element_click element (focus w) (windows w) (ext w) in
    (r, set_windows ws (set_ext p w)).

Definition click (element : elem) : M P bool :=
  try_except
    (click_element element ;;
     random_wait "short" ;;
     ret true)
    (fun e => Some (logger ERROR ("Error clicking element: " +:+ exn_str e) ;;
                    ret false)).

(** The loop of [new_tab_action]: the first handle that is not the current
    one, switched to as soon as it is met. *)
Fixpoint switch_to_first_other (current_window : handle) (handles : list handle)
  : M P (option handle) :=
  match handles with
  | [] => ret None
  | window_handle :: rest =>
      if negb (handle_eqb window_handle current_window) then
        switch_to_window window_handle ;;
        ret (Some window_handle)
      else switch_to_first_other current_window rest
  end.

(** The handle that loop stops at. *)
Definition first_other (current_window : handle) (handles : list handle)
  : option handle :=
  List.find (fun h => negb (handle_eqb h current_window)) handles.

Definition new_tab_action {A} (action_callback : M P A) : M P (option A) :=
  current_window <- current_window_handle ;;
  handles <- window_handles ;;
  new_window <- switch_to_first_other current_window handles ;;
  match new_window with
  | None =>
      logger WARNING "No new tab was opened" ;;
      ret None
  | Some _ =>
      result <- try_except
                  (r <- action_callback ;; ret (Some r))
                  (fun e => Some (logger ERROR ("Error in new tab: " +:+ exn_str e) ;;
                                  ret None)) ;;
      handles <- window_handles ;;
      (if 1 <? length handles then driver_close else ret tt) ;;
      switch_to_window current_window ;;
      ret result
  end.

Definition scroll_page (direction : string) (amount : option Z) : M P unit :=
  amount <- match amount with
            | None =>
                r <- external (random_randint 300 700) ;;
                ret (r * (if String.eqb direction "up" then -1 else 1))%Z
            | Some a =>
                if String.eqb direction "up" then ret (- Z.abs a)%Z else ret a
            end ;;
  page (driver_execute_script ("window.scrollBy(0, " +:+ Str.of_Z amount +:+ ");")) ;;
  random_wait "human_like".

(** [for _ in range(n): body] *)
Fixpoint for_range (n : nat) (body : M P unit) : M P unit :=
  match n with
  | O => ret tt
  | S k => body ;; for_range k body
  end.

Definition human_like_browsing : M P unit :=
  n <- external (random_randint 2 5) ;;
  for_range (Z.to_nat n) (scroll_page "down" None) ;;
  r <- external random_random ;;
  if negb (Qle_bool r (3 # 10)) then
    m <- external (random_randint 1 3) ;;
    for_range (Z.to_nat m) (scroll_page "up" None)
  else ret tt.

(** [BrowserManager.__exit__] *)
Definition browser_exit : M P unit :=
  driver_quit ;;
  logger INFO "Browser closed".

(** *** src/tasks/base.py: BaseTask *)

(** [task_element.find_element(By.XPATH, xpath)] and its siblings. *)
Definition find_element (e : elem) (xpath : string) : M P elem :=
  page (element_find_element e xpath).
Definition find_elements (e : elem) (xpath : string) : M P (list elem) :=
  page (element_find_elements e xpath).
Definition text_of (e : elem) : M P string := page (element_text e).
Definition get_attribute (e : elem) (attr : string) : M P (option string) :=
  page (element_get_attribute e attr).

(** A [WebElement] object is always truthy. *)
Definition elem_truthy (e : elem) : bool := true.

Definition expand_task (task_element : elem) : M P bool :=
  try_except
    (expand_button <-
       find_element task_element
         ".//button[contains(@class, 'expand') or contains(@class, 'dropdown')]" ;;
     _ <- click expand_button ;;
     logger INFO "Expanded task" ;;
     ret true)
    (fun e =>
       match e with
       | NoSuchElementException _ =>
           Some (logger DEBUG "No expand button found, task may already be expanded" ;;
                 ret true)
       | _ => Some (logger ERROR ("Error expanding task: " +:+ exn_str e) ;;
                    ret false)
       end).

Definition confirm_xpath : string :=
  ".//button[contains(@class, 'confirm') or contains(., 'Verify') or contains(., 'Done')]".

Definition check_task_completion (task_element : elem) : M P bool :=
  try_except
    (completion_element <- find_element task_element Settings.task_completed ;;
     if elem_truthy completion_element then
       logger INFO "Task marked as completed" ;;
       ret true
     else ret false)
    (fun e =>
       match e with
       | NoSuchElementException _ =>
           Some
             (logger WARNING "Task not marked as completed automatically" ;;
              try_except
                (confirm_button <- find_element task_element confirm_xpath ;;
                 _ <- click confirm_button ;;
                 logger INFO "Clicked task confirmation button" ;;
                 random_wait "short" ;;
                 ret true)
                (fun e' =>
                   match e' with
                   | NoSuchElementException _ =>
                       Some (logger WARNING "No confirmation button found" ;;
                             ret false)
                   | _ => Some (logger ERROR ("Error confirming task: " +:+ exn_str e') ;;
                                ret false)
                   end))
       | _ => None
       end).

(** The verify step as the specification words it (section 4.3, step 3): look
    for the marker; if it is absent look for a confirm control, click it if
    found, and look for the marker again.  Kept apart from
    [check_task_completion], which is the source's, to compare the two. *)
Definition verify_as_specified (task_element : elem) : M P bool :=
  let marker_present :=
    try_except
      (_ <- find_element task_element Settings.task_completed ;; ret true)
      (fun e => match e with
                | NoSuchElementException _ => Some (ret false)
                | _ => None
                end) in
  present <- marker_present ;;
  if present : bool then ret true
  else
    try_except
      (confirm_button <- find_element task_element confirm_xpath ;;
       _ <- click confirm_button ;;
       random_wait "short" ;;
       marker_present)
      (fun e => Some (ret false)).

Definition link_xpath : string :=
  ".//a[contains(@href, 'http') or contains(@href, 'https')]".

Definition BaseTask_complete_task (task_element : elem) : M P bool :=
  expanded <- expand_task task_element ;;
  if negb expanded then ret false
  else
    try_except
      (buttons <- find_elements task_element link_xpath ;;
       match buttons with
       | [] =>
           logger WARNING "No action buttons found for this task" ;;
           ret false
       | action_button :: _ =>
           main_window <- current_window_handle ;;
           _ <- click action_button ;;
           logger INFO "Clicked action button" ;;
           result <- new_tab_action human_like_browsing ;;
           check_task_completion task_element
       end)
      (fun e => Some (logger ERROR ("Error completing task: " +:+ exn_str e) ;;
                      ret false)).

(** *** src/tasks/telegram.py: TelegramTask *)

(** [f"{x}"] for a value that may be [None]. *)
Definition fstr (o : option string) : string := default "None" o.

Definition telegram_action (telegram_url : option string) : M P bool :=
  logger INFO ("Manual action required: Join Telegram group at " +:+ fstr telegram_url) ;;
  url <- page driver_current_url ;;
  needs_login <- (if Str.contains "login" url then ret true
                  else src <- page driver_page_source ;;
                       ret (Str.contains "Login" src)) ;;
  (if needs_login : bool then
     w <- get_world ;;
     logger INFO ("Please login with Telegram account: "
                    +:+ fstr (os_getenv "TELEGRAM_USERNAME" (ext w)))
   else ret tt) ;;
  try_except
    (join_button <-
       wait_for_element until_presence_of_element_located
         "//button[contains(., 'Join') or contains(., 'join')]" (Some 5%Z) ;;
     match join_button with
     | Some _ => logger INFO "Join button found on Telegram page"
     | None => ret tt
     end)
    (fun _ => Some (logger INFO "No join button found, you may need to login first")) ;;
  human_like_browsing ;;
  ret true.

(** The prompt [complete_task] sends for the link it found. *)
Definition telegram_prompt (telegram_url : option string) : string :=
  "Analyze this Telegram group link: " +:+ fstr telegram_url +:+ ". "
    +:+ "What is this group about? Is it related to a cryptocurrency project? "
    +:+ "What should I expect when joining?".

Definition TelegramTask_complete_task (task_element : elem) : M P bool :=
  expanded <- expand_task task_element ;;
  if negb expanded then ret false
  else
    try_except
      (telegram_button <- find_element task_element Settings.telegram_button ;;
       if negb (elem_truthy telegram_button) then
         logger WARNING "No Telegram button found" ;;
         ret false
       else
         telegram_url <- get_attribute telegram_button "href" ;;
         telegram_info <- get_ai_assistance (telegram_prompt telegram_url) None None ;;
         logger INFO ("Telegram group info from AI: " +:+ telegram_info) ;;
         _ <- click telegram_button ;;
         result <- new_tab_action (telegram_action telegram_url) ;;
         check_task_completion task_element)
      (fun e => Some (logger ERROR ("Error completing Telegram task: " +:+ exn_str e) ;;
                      ret false)).

(** *** src/airdrop.py: AirdropManager *)

(** One entry of the list built by [get_available_airdrops]. *)
Record airdrop : Type := {
  name : string;
  time_left : string;
  reward : string;
  element : elem
}.

Definition _load_completed_airdrops : M P (gmap string completion_record) :=
  ex <- os_path_exists_file ;;
  if negb ex then ret ∅
  else
    try_except open_json_load
      (fun e =>
         match e with
         | JSONDecodeError _ | FileNotFoundError _ =>
             Some (logger WARNING
                     "Could not load completed airdrops file, creating new one" ;;
                   ret ∅)
         | _ => None
         end).

Definition _save_completed_airdrops : M P unit :=
  try_except
    (w <- get_world ;;
     open_json_dump (completed_airdrops w))
    (fun e => Some (logger ERROR ("Error saving completed airdrops: " +:+ exn_str e))).

(** [AirdropManager.__init__] *)
Definition AirdropManager_init : M P unit :=
  loaded <- _load_completed_airdrops ;;
  fun w => (Ok tt, set_completed loaded w).

Definition navigate_to_listing (url : string) : M P unit :=
  get url ;;
  all_airdrops_tab <-
    wait_for_element until_presence_of_element_located Settings.all_airdrops_tab None ;;
  match all_airdrops_tab with
  | Some tab => _ <- click tab ;; ret tt
  | None => ret tt
  end.

(** An optional field of a card: its text, or "Unknown" when the card has no
    such element. *)
Definition optional_text (card : elem) (xpath : string) : M P string :=
  try_except
    (e <- find_element card xpath ;; text_of e)
    (fun e => match e with
              | NoSuchElementException _ => Some (ret "Unknown")
              | _ => None
              end).

(** The loop over the cards of [get_available_airdrops]. *)
Fixpoint parse_airdrop_elements (airdrop_elements : list elem) (airdrops : list airdrop)
  : M P (list airdrop) :=
  match airdrop_elements with
  | [] => ret airdrops
  | card :: rest =>
      airdrops <-
        try_except
          (name_element <-
             find_element card ".//div[contains(@class, 'airdrop-name')]" ;;
           name <- text_of name_element ;;
           time_left <- optional_text card ".//div[contains(@class, 'time-left')]" ;;
           reward <- optional_text card ".//div[contains(@class, 'reward')]" ;;
           ret (airdrops ++ [{| name := name; time_left := time_left;
                                reward := reward; element := card |}]))
          (fun e =>
             match e with
             | NoSuchElementException _ =>
                 Some (logger WARNING ("Error parsing airdrop element: " +:+ exn_str e) ;;
                       ret airdrops)
             | _ => None
             end) ;;
      parse_airdrop_elements rest airdrops
  end.

Definition get_available_airdrops : M P (list airdrop) :=
  airdrop_elements <- wait_for_elements Settings.airdrop_cards None ;;
  match airdrop_elements with
  | None | Some [] =>
      logger WARNING "No airdrop elements found on page" ;;
      ret []
  | Some airdrop_elements =>
      airdrops <- parse_airdrop_elements airdrop_elements [] ;;
      logger INFO ("Found " +:+ Str.dec (length airdrops) +:+ " available airdrops") ;;
      ret airdrops
  end.

(** The search loop of [select_airdrop]: the first candidate whose
    lower-cased name contains the lower-cased request. *)
Fixpoint find_requested (airdrop_name : string) (airdrops : list airdrop)
  : option airdrop :=
  match airdrops with
  | [] => None
  | a :: rest =>
      if Str.contains (Str.lower airdrop_name) (Str.lower (name a)) then Some a
      else find_requested airdrop_name rest
  end.

(** [select_airdrop] after the listing has been scraped. *)
Definition select_among (airdrops : list airdrop) (airdrop_name : option string)
  : M P (option string) :=
  match airdrops with
  | [] =>
      logger ERROR "No airdrops available" ;;
      ret None
  | first :: _ =>
      selected_airdrop <-
        (if Str.opt_truthy airdrop_name then
           match find_requested (default "" airdrop_name) airdrops with
           | Some a => ret a
           | None =>
               logger WARNING ("Airdrop '" +:+ default "" airdrop_name
                                 +:+ "' not found, selecting first available") ;;
               ret first
           end
         else ret first) ;;
      w <- get_world ;;
      if bool_decide (is_Some (completed_airdrops w !! name selected_airdrop)) then
        logger INFO ("Airdrop '" +:+ name selected_airdrop
                       +:+ "' already completed, skipping") ;;
        ret None
      else
        clicked <- click (element selected_airdrop) ;;
        if clicked : bool then
          logger INFO ("Selected airdrop: " +:+ name selected_airdrop) ;;
          random_wait "medium" ;;
          ret (Some (name selected_airdrop))
        else
          logger ERROR ("Error clicking on airdrop: " +:+ name selected_airdrop) ;;
          ret None
  end.

(** The value of [selected_airdrop] when [select_airdrop] reaches its
    completion check. *)
Definition chosen (airdrops : list airdrop) (airdrop_name : option string)
  : option airdrop :=
  match airdrops with
  | [] => None
  | first :: _ =>
      Some (if Str.opt_truthy airdrop_name
            then default first (find_requested (default "" airdrop_name) airdrops)
            else first)
  end.

Definition select_airdrop (airdrop_name : option string) : M P (option string) :=
  airdrops <- get_available_airdrops ;;
  select_among airdrops airdrop_name.

Definition get_task_type (task_text : string) : string :=
  let task_text := Str.lower task_text in
  if Str.contains "visit" task_text && Str.contains "airdrop page" task_text then "visit"
  else if Str.contains "telegram" task_text then "telegram"
  else "unknown".

(** The handler table that [AirdropManager.__init__] builds: a [TelegramTask]
    under 'telegram', [None] under 'visit', and no other key. *)
Definition task_handlers (task_type : string) : option (elem -> M P bool) :=
  if String.eqb task_type "telegram" then Some TelegramTask_complete_task
  else None.

(** [AirdropManager.complete_all_tasks]: the body is the docstring alone, so
    a call does nothing and returns [None]. *)
Definition complete_all_tasks (airdrop_name : string) : M P (option bool) :=
  ret None.

(** *** main.py: the [try] block of [main] *)

(** [with BrowserManager(...) as browser: body]; [__exit__] runs on every
    way out of the body and lets an exception through. *)
Definition with_browser {A} (body : M P A) : M P A :=
  fun w =>
    let '(r, w') := body w in
    let '(_, w'') := browser_exit w' in
    (r, w'').

Definition main (args_airdrop : option string) (args_url : string) : M P unit :=
  try_except
    (with_browser
       (AirdropManager_init ;;
        navigate_to_listing args_url ;;
        airdrop_name <- select_airdrop args_airdrop ;;
        if Str.opt_truthy airdrop_name then
          success <- complete_all_tasks (default "" airdrop_name) ;;
          (match success with
           | Some true =>
               logger INFO ("Successfully completed all tasks for "
                              +:+ default "" airdrop_name)
           | _ =>
               logger WARNING ("Could not complete all tasks for "
                                 +:+ default "" airdrop_name)
           end) ;;
          external_ (time_sleep (3 # 1))
        else
          logger ERROR "No airdrop was selected or available"))
    (fun e => Some (logger ERROR ("Unexpected error: " +:+ exn_str e))).

End Program.

(** ** A scripted implementation of the collaborators

    A page whose answers are fixed in advance, used for the concrete runs.  It
    keeps the list of the selectors it was asked to look up. *)

Module Scripted.

Record page_script : Type := {
  cards : list (nat * string);       (* campaign cards: element id and name *)
  unclickable : list nat;            (* elements whose click() raises *)
  opened_by_click : list handle;     (* windows a click on a link opens *)
  has_telegram_link : bool;
  links : list nat;                  (* outbound links of a task *)
  tasks : list (nat * string);       (* mandatory tasks: element id and text *)
  has_marker : bool;                 (* the "completed" marker is shown *)
  has_confirm : bool;                (* a confirm/verify/done button is shown *)
  script_fails : bool;               (* execute_script raises *)
  close_fails : bool;                (* driver.close() raises *)
  env_api_key : option string;
  api_answer : result string;
  clock : struct_time;
  lookups : list string              (* selectors looked up so far, oldest first *)
}.

Definition looked_up (x : string) (p : page_script) : page_script :=
  {| cards := cards p; unclickable := unclickable p;
     opened_by_click := opened_by_click p;
     has_telegram_link := has_telegram_link p; links := links p;
     tasks := tasks p;
     has_marker := has_marker p; has_confirm := has_confirm p;
     script_fails := script_fails p; close_fails := close_fails p;
     env_api_key := env_api_key p;
     api_answer := api_answer p; clock := clock p;
     lookups := lookups p ++ [x] |}.

Definition card_name (id : nat) (p : page_script) : option string :=
  snd <$> List.find (fun c => Nat.eqb (fst c) id) (cards p).

Definition absent {A} (x : string) : result A :=
  Raise (NoSuchElementException ("no such element: " +:+ x)).

Definition s_find_element (e : elem) (xpath : string) : pageop page_script elem :=
  fun _ p =>
    let p' := looked_up xpath p in
    let '(Elem id) := e in
    if String.eqb xpath Settings.task_completed then
      (if has_marker p then Ok (Elem 900) else absent xpath, p')
    else if String.eqb xpath confirm_xpath then
      (if has_confirm p then Ok (Elem 901) else absent xpath, p')
    else if String.eqb xpath Settings.telegram_button then
      (if has_telegram_link p then Ok (Elem 902) else absent xpath, p')
    else if String.eqb xpath ".//div[contains(@class, 'airdrop-name')]" then
      (match card_name id p with
       | Some _ => Ok (Elem (1000 + id))
       | None => absent xpath
       end, p')
    else (absent xpath, p').

Definition s_find_elements (e : elem) (xpath : string)
  : pageop page_script (list elem) :=
  fun _ p =>
    (Ok (if String.eqb xpath link_xpath then List.map Elem (links p) else []),
     looked_up xpath p).

Definition task_text (id : nat) (p : page_script) : option string :=
  snd <$> List.find (fun t => Nat.eqb (fst t) id) (tasks p).

Definition s_text (e : elem) : pageop page_script string :=
  fun _ p =>
    let '(Elem id) := e in
    (Ok (if 1000 <=? id then default "" (card_name (id - 1000) p)
         else default "" (task_text id p)), p).

Definition s_get_attribute (e : elem) (attr : string)
  : pageop page_script (option string) :=
  fun _ p => (Ok (Some "https://t.me/alphadrop"), p).

Definition s_click (e : elem) (h : handle) (ws : list handle) (p : page_script)
  : result unit * list handle * page_script :=
  let '(Elem id) := e in
  if existsb (Nat.eqb id) (unclickable p) then
    (Raise (OtherException "element click intercepted"), ws, p)
  else if Nat.eqb id 902 || existsb (Nat.eqb id) (links p) then
    (Ok tt, ws ++ opened_by_click p, p)
  else (Ok tt, ws, p).

Definition s_until_one (timeout : Z) (xpath : string) : pageop page_script elem :=
  fun _ p => (Raise (OtherException "timeout"), looked_up xpath p).

Definition s_until_all (timeout : Z) (xpath : string)
  : pageop page_script (list elem) :=
  fun _ p =>
    (if String.eqb xpath Settings.airdrop_cards then
       match cards p with
       | [] => Raise (OtherException "timeout")
       | cs => Ok (List.map (fun c => Elem (fst c)) cs)
       end
     else if String.eqb xpath Settings.task_items then
       match tasks p with
       | [] => Raise (OtherException "timeout")
       | ts => Ok (List.map (fun t => Elem (fst t)) ts)
       end
     else Raise (OtherException "timeout"),
     looked_up xpath p).

Definition s_execute_script (script : string) : pageop page_script unit :=
  fun _ p =>
    (if script_fails p then Raise (OtherException "javascript error") else Ok tt, p).

Definition s_close (h : handle) (ws : list handle) : page_script -> result unit * page_script :=
  fun p =>
    (if close_fails p then Raise (OtherException "unexpected alert open") else Ok tt, p).

#[global] Instance driver : Driver page_script := {|
  element_find_element := s_find_element;
  element_find_elements := s_find_elements;
  element_text := s_text;
  element_get_attribute := s_get_attribute;
  element_click := s_click;
  driver_switch_to_window := fun _ _ _ p => (Ok tt, p);
  driver_close_window := s_close;
  driver_get := fun _ _ p => (Ok tt, p);
  until_presence_of_element_located := s_until_one;
  until_presence_of_all_elements_located := s_until_all;
  driver_current_url := fun _ p => (Ok "https://t.me/alphadrop", p);
  driver_page_source := fun _ p => (Ok "<html></html>", p);
  driver_execute_script := s_execute_script;
  random_randint := fun a _ p => (a, p);
  random_random := fun p => (0 # 1, p)%Q;
  sleep_uniform := fun _ _ p => p;
  time_sleep := fun _ p => p;
  time_localtime := clock;
  os_getenv := fun v p => if String.eqb v "OPENAI_API_KEY" then env_api_key p else None;
  chat_completion_create := fun _ _ _ _ p => (api_answer p, p)
|}.

(** 2026-11-04 09:05:07 *)
Definition noon : struct_time :=
  {| tm_year := 2026; tm_mon := 11; tm_mday := 4;
     tm_hour := 9; tm_min := 5; tm_sec := 7; tm_range := eq_refl |}.

Definition empty_disk : disk :=
  {| data_dir_exists := true; completed_file := None;
     read_fault := None; write_fault := None |}.

(** A listing page with the given cards; a task on it has one outbound
    link, which opens one tab, and shows the completed marker. *)
Definition listing (cs : list (nat * string)) : page_script :=
  {| cards := cs; unclickable := []; opened_by_click := [Handle 1];
     has_telegram_link := true; links := [50];
     tasks := [(7, "Join our Telegram group (Mandatory)")];
     has_marker := true; has_confirm := false; script_fails := false;
           close_fails := false;
     env_api_key := Some "sk-test"; api_answer := Ok "A crypto community.";
     clock := noon; lookups := [] |}.

(** The world right after the browser was launched: one window, focused. *)
Definition start (p : page_script) (d : disk) (m : gmap string completion_record)
  : world page_script :=
  {| windows := [Handle 0]; focus := Handle 0; ext := p; fs := d;
     openai_api_key := None; completed_airdrops := m; log := [] |}.

Definition done_record : completion_record :=
  {| completed_date := "2026-11-03 18:30:00"; status := "success" |}.

(** Scenario 1: an empty store and the single candidate "AlphaDrop". *)
Definition alpha_fresh : world page_script :=
  start (listing [(1, "AlphaDrop")]) empty_disk ∅.

(** Scenario 2: the store already holds "AlphaDrop". *)
Definition alpha_done : world page_script :=
  start (listing [(1, "AlphaDrop")]) empty_disk {["AlphaDrop" := done_record]}.

Definition beta : airdrop :=
  {| name := "Beta"; time_left := "Unknown"; reward := "Unknown"; element := Elem 1 |}.
Definition gamma : airdrop :=
  {| name := "Gamma"; time_left := "Unknown"; reward := "Unknown"; element := Elem 2 |}.

(** Scenario 2 from the start of the process: the record is in the file. *)
Definition alpha_on_disk : world page_script :=
  start (listing [(1, "AlphaDrop")])
        {| data_dir_exists := true;
           completed_file := Some (JsonObject {["AlphaDrop" := done_record]});
           read_fault := None; write_fault := None |}
        ∅.

(** Scenario 3: the candidates "Beta" and "Gamma", over a given store. *)
Definition beta_gamma (m : gmap string completion_record) : world page_script :=
  start (listing [(1, "Beta"); (2, "Gamma")]) empty_disk m.

(** A task that shows no completed marker but has a confirm button. *)
Definition unmarked_task : world page_script :=
  start {| cards := []; unclickable := []; opened_by_click := [Handle 1];
           has_telegram_link := true; links := [50];
         tasks := [(7, "Join our Telegram group (Mandatory)")];
           has_marker := false; has_confirm := true; script_fails := false;
           close_fails := false;
           env_api_key := Some "sk-test"; api_answer := Ok "A crypto community.";
           clock := noon; lookups := [] |}
        empty_disk ∅.



(** Scenario 4: a chat-join task while the text-generation service fails. *)
Definition failing_api : world page_script :=
  start {| cards := []; unclickable := []; opened_by_click := [Handle 1];
           has_telegram_link := true; links := [50];
         tasks := [(7, "Join our Telegram group (Mandatory)")];
           has_marker := true; has_confirm := false; script_fails := false;
           close_fails := false;
           env_api_key := Some "sk-test";
           api_answer := Raise (OtherException "Rate limit reached");
           clock := noon; lookups := [] |}
        empty_disk ∅.

(** The data directory cannot be written to. *)
Definition read_only : world page_script :=
  start (listing [(1, "AlphaDrop")])
        {| data_dir_exists := true; completed_file := None; read_fault := None;
           write_fault := Some (OpenFails (OtherException "Permission denied")) |}
        ∅.

(** The file holds a record, and the disk fills up while it is rewritten:
    [open] truncates it and the dump raises, leaving an empty file. *)
Definition disk_full : world page_script :=
  start (listing [(1, "AlphaDrop")])
        {| data_dir_exists := true;
           completed_file := Some (JsonObject {["AlphaDrop" := done_record]});
           read_fault := None;
           write_fault := Some (DumpFails (OtherException "No space left on device")
                                  Malformed) |}
        ∅.

(** One tab is open beside the primary window, and [driver.close()] raises. *)
Definition stuck_tab : world page_script :=
  {| windows := [Handle 0; Handle 1]; focus := Handle 0;
     ext := {| cards := []; unclickable := []; opened_by_click := [];
               has_telegram_link := false; links := [];
               tasks := [];
               has_marker := false; has_confirm := false; script_fails := false;
               close_fails := true;
               env_api_key := None; api_answer := Ok "";
               clock := noon; lookups := [] |};
     fs := empty_disk;
     openai_api_key := None; completed_airdrops := ∅; log := [] |}.

(** The completion file exists and holds a record, but cannot be opened. *)
Definition unreadable : world page_script :=
  start (listing [(1, "AlphaDrop")])
        {| data_dir_exists := true;
           completed_file := Some (JsonObject {["AlphaDrop" := done_record]});
           read_fault := Some (OtherException "Permission denied");
           write_fault := None |}
        ∅.

End Scripted.

(** ** Facts about the program *)

(** Running a computation: its value and the world it leaves. *)
Definition value_of {P A} (r : result A * world P) : result A := fst r.
Definition world_of {P A} (r : result A * world P) : world P := snd r.

(** What [except Exception: ... return False] makes of a boolean step. *)
Definition or_false (r : result bool) : bool :=
  match r with Ok b => b | Raise _ => false end.

(** The pattern [YYYY-MM-DD HH:MM:SS] of a completion date. *)
Definition well_formed_timestamp (s : string) : bool :=
  match list_ascii_of_string s with
  | [y1; y2; y3; y4; d1; m1; m2; d2; a1; a2; sp; h1; h2; c1; n1; n2; c2; s1; s2] =>
      forallb Str.is_digit [y1; y2; y3; y4; m1; m2; a1; a2; h1; h2; n1; n2; s1; s2]
      && Ascii.eqb d1 "-" && Ascii.eqb d2 "-" && Ascii.eqb sp " "
      && Ascii.eqb c1 ":" && Ascii.eqb c2 ":"
  | _ => false
  end.

(** The exception is a NoSuchElementException. *)
Definition is_no_such_element (e : exn) : bool :=
  match e with NoSuchElementException _ => true | _ => false end.

(** The name element of a card. *)
Definition name_xpath : string := ".//div[contains(@class, 'airdrop-name')]".

(** A listing page that holds still while it is scraped, as far as [cards]
    go: [steady] is kept by every lookup and every reading of a text; while it
    holds, a lookup that fails fails with NoSuchElementException and a text can
    always be read; and a card has a name element, reading [n], exactly when
    [named] gives [Some n]. *)
Definition steady_listing {P} `{Driver P} (steady : P -> Prop)
    (named : elem -> option string) (cards : list elem) : Prop :=
  (forall e xpath h p,
      steady p ->
      steady (snd (element_find_element e xpath h p)) /\
      forall x, fst (element_find_element e xpath h p) = Raise x ->
                is_no_such_element x = true) /\
  (forall e h p,
      steady p ->
      steady (snd (element_text e h p)) /\
      exists t, fst (element_text e h p) = Ok t) /\
  (forall card h p,
      steady p -> In card cards ->
      match named card with
      | Some n =>
          exists name_element p1,
            element_find_element card name_xpath h p = (Ok name_element, p1) /\
            fst (element_text name_element h p1) = Ok n
      | None =>
          exists msg,
            fst (element_find_element card name_xpath h p)
            = Raise (NoSuchElementException msg)
      end).

(** [sub] occurs in [s]: some text, then [sub], then some text. *)
Definition occurs_in (sub s : string) : Prop :=
  exists pre post : string, s = (pre ++ sub ++ post)%string.

(** The mapping the backing file holds: empty when the file is missing or does
    not parse. *)
Definition stored (d : disk) : gmap string completion_record :=
  match completed_file d with
  | Some (JsonObject m) => m
  | _ => ∅
  end.

(** [preserves R m]: running [m] only moves the world along [R]. *)
Definition preserves {P A} (R : world P -> world P -> Prop) (m : M P A) : Prop :=
  forall w, R w (world_of (m w)).

(** A relation between a world and a later one that logging, the passing of
    external state and the stored API key do not leave; a [WindowFrame] is
    one that window operations do not leave either. *)
Class Frame {P} (R : world P -> world P -> Prop) : Prop := {
  frame_refl : forall w, R w w;
  frame_trans : forall a b c, R a b -> R b c -> R a c;
  frame_log : forall e w, R w (add_log e w);
  frame_ext : forall p w, R w (set_ext p w);
  frame_api_key : forall k w, R w (set_api_key k w)
}.

Class WindowFrame {P} (R : world P -> world P -> Prop) : Prop := {
  frame_windows : forall ws w, R w (set_windows ws w);
  frame_focus : forall h w, R w (set_focus h w)
}.

(** The Completion Store, in memory and on disk, is the same in both worlds. *)
Definition same_store {P} (w w' : world P) : Prop :=
  completed_airdrops w' = completed_airdrops w /\ fs w' = fs w.

(** The [try] block of [new_tab_action]: the callback, with every exception
    it raises logged and turned into [None]. *)
Definition in_new_tab {P A} (action_callback : M P A) : M P (option A) :=
  try_except
    (r <- action_callback ;; ret (Some r))%py
    (fun e => Some (logger ERROR ("Error in new tab: " +:+ exn_str e) ;; ret None)%py).

(** The disk is the same in both worlds. *)
Definition same_disk {P} (w w' : world P) : Prop := fs w' = fs w.

(** The open windows and the focused one are the same in both worlds. *)
Definition same_windows {P} (w w' : world P) : Prop :=
  windows w' = windows w /\ focus w' = focus w.


Ltac unfold_monad :=
  unfold bind, ret, try_except, logger, get_world, raise, external, external_, page in *.

(** *** Frame lemmas: what a computation leaves alone *)

Section Frame.

Context {P : Type} `{Driver P}.
Context (R : world P -> world P -> Prop) `{!Frame R}.

Local Abbreviation preserves := (preserves R).

Lemma preserves_ret {A} (a : A) : preserves (ret a).
Proof. intros w. apply frame_refl. Qed.

Lemma preserves_raise {A} (e : exn) : preserves (@raise P A e).
Proof. intros w. apply frame_refl. Qed.

Lemma preserves_bind {A B} (m : M P A) (k : A -> M P B) :
  preserves m -> (forall a, preserves (k a)) -> preserves (bind m k).
Proof.
  intros Hm Hk w. unfold bind. specialize (Hm w).
  destruct (m w) as [[a|e] w']; cbn in *.
  - eapply frame_trans; [exact Hm | apply Hk].
  - exact Hm.
Qed.

Lemma preserves_try_except {A} (m : M P A) (h : exn -> option (M P A)) :
  preserves m -> (forall e k, h e = Some k -> preserves k) ->
  preserves (try_except m h).
Proof.
  intros Hm Hh w. unfold try_except. specialize (Hm w).
  destruct (m w) as [[a|e] w']; cbn in *; [exact Hm|].
  destruct (h e) as [k|] eqn:E; cbn; [|exact Hm].
  eapply frame_trans; [exact Hm | eapply Hh; eassumption].
Qed.

Lemma preserves_logger l msg : preserves (logger l msg).
Proof. intros w. apply frame_log. Qed.

Lemma preserves_get_world : preserves get_world.
Proof. intros w. apply frame_refl. Qed.

Lemma preserves_page {A} (op : pageop P A) : preserves (page op).
Proof. intros w. unfold page. destruct (op (focus w) (ext w)). apply frame_ext. Qed.

Lemma preserves_external {A} (op : P -> A * P) : preserves (external op).
Proof. intros w. unfold external. destruct (op (ext w)). apply frame_ext. Qed.

Lemma preserves_external_ (op : P -> P) : preserves (external_ op).
Proof. intros w. apply frame_ext. Qed.

Lemma preserves_window_handles : preserves window_handles.
Proof. intros w. apply frame_refl. Qed.

Lemma preserves_current_window_handle : preserves current_window_handle.
Proof. intros w. apply frame_refl. Qed.

Lemma preserves_set_api_key k : preserves (fun w => (Ok tt, set_api_key k w)).
Proof. intros w. apply frame_api_key. Qed.

Lemma preserves_random_wait wait_type : preserves (random_wait wait_type).
Proof.
  unfold random_wait. destruct (default _ _). apply preserves_external_.
Qed.

Section Windows.

Context `{!WindowFrame R}.

Lemma preserves_click_element e : preserves (click_element e).
Proof.
  intros w. unfold click_element.
  destruct (element_click e (focus w) (windows w) (ext w)) as [[r ws] p]. cbn.
  eapply frame_trans; [apply frame_ext | apply frame_windows].
Qed.

Lemma preserves_switch_to_window h : preserves (switch_to_window h).
Proof.
  intros w. unfold switch_to_window.
  destruct (existsb _ _); [|apply frame_refl].
  destruct (driver_switch_to_window _ _ _ _) as [[[]|e] p]; cbn.
  - eapply frame_trans; [apply frame_ext | apply frame_focus].
  - apply frame_ext.
Qed.

Lemma preserves_driver_close : preserves driver_close.
Proof.
  intros w. unfold driver_close.
  destruct (existsb _ _); [|apply frame_refl].
  destruct (driver_close_window _ _ _) as [[[]|e] p]; cbn.
  - eapply frame_trans; [apply frame_ext | apply frame_windows].
  - apply frame_ext.
Qed.

End Windows.

End Frame.

(** Breaks a goal [preserves R m] down along the structure of [m]. *)
Ltac frame_step :=
  match goal with
  | |- preserves ?R (ret _) => apply (preserves_ret R)
  | |- preserves ?R (raise _) => apply (preserves_raise R)
  | |- preserves ?R (bind _ _) => apply (preserves_bind R); [| intro]
  | |- preserves ?R (try_except _ _) =>
      let e := fresh "e" in let k := fresh "k" in let E := fresh "E" in
      apply (preserves_try_except R);
      [| intros e k E; destruct e; cbn in E; inversion E; subst; clear E]
  | |- preserves ?R (logger _ _) => apply (preserves_logger R)
  | |- preserves ?R get_world => apply (preserves_get_world R)
  | |- preserves ?R (page _) => apply (preserves_page R)
  | |- preserves ?R (external _) => apply (preserves_external R)
  | |- preserves ?R (external_ _) => apply (preserves_external_ R)
  | |- preserves ?R (random_wait _) => apply (preserves_random_wait R)
  | |- preserves ?R (click_element _) => apply (preserves_click_element R)
  | |- preserves ?R (switch_to_window _) => apply (preserves_switch_to_window R)
  | |- preserves ?R driver_close => apply (preserves_driver_close R)
  | |- preserves ?R window_handles => apply (preserves_window_handles R)
  | |- preserves ?R current_window_handle => apply (preserves_current_window_handle R)
  | |- preserves ?R (fun w => (Ok tt, set_api_key _ w)) => apply (preserves_set_api_key R)
  | |- preserves _ (match (if ?b then _ else _) with _ => _ end) => destruct b
  | |- preserves _ (match ?x with _ => _ end) => destruct x
  end.

Ltac frame := repeat (first [ assumption | frame_step ]).

(** *** The two frames used below *)

Section Frames.

Context {P : Type}.

#[export] Instance same_store_frame : Frame (@same_store P).
Proof. split; intros; try (split; reflexivity). destruct H, H0; split; congruence. Qed.

#[export] Instance same_store_window_frame : WindowFrame (@same_store P).
Proof. split; intros; split; reflexivity. Qed.

#[export] Instance same_windows_frame : Frame (@same_windows P).
Proof. split; intros; try (split; reflexivity). destruct H, H0; split; congruence. Qed.

#[export] Instance same_disk_frame : Frame (@same_disk P).
Proof. split; intros; try reflexivity. unfold same_disk in *. congruence. Qed.

#[export] Instance same_disk_window_frame : WindowFrame (@same_disk P).
Proof. split; intros; reflexivity. Qed.

End Frames.

(** *** The browser wrapper never raises where it catches everything *)

Section Browser.

Context {P : Type} `{Driver P}.

Lemma random_wait_ok wait_type (w : world P) :
  exists w', random_wait wait_type w = (Ok tt, w').
Proof.
  unfold random_wait. destruct (default _ _) as [a b]. eexists. reflexivity.
Qed.

Lemma click_ok (e : elem) (w : world P) :
  exists b w', click e w = (Ok b, w').
Proof.
  unfold click. unfold_monad.
  destruct (click_element e w) as [[[]|x] w1].
  - destruct (random_wait_ok "short" w1) as [w2 E]. rewrite E. eauto.
  - eauto.
Qed.

Lemma preserves_click R `{!Frame R, !WindowFrame R} (e : elem) :
  preserves R (click e).
Proof. unfold click. frame. Qed.

Lemma preserves_wait_for_element R `{!Frame R} {A}
    (c : Z -> string -> pageop P A) value timeout :
  preserves R (wait_for_element c value timeout).
Proof. unfold wait_for_element. frame. Qed.

End Browser.

Section Classifier.

(** C2, as stated, fails: a text with all three substrings is tagged 'visit'. *)
Lemma get_task_type_telegram_first_fails :
  ~ (forall task_text : string,
        Str.contains "telegram" (Str.lower task_text) = true ->
        Str.contains "visit" (Str.lower task_text) = true ->
        Str.contains "airdrop page" (Str.lower task_text) = true ->
        get_task_type task_text = "telegram").
Proof.
  intros claim.
  specialize (claim "Visit the airdrop page and join our Telegram").
  vm_compute in claim.
  specialize (claim eq_refl eq_refl eq_refl). discriminate claim.
Qed.

(** C2 (amended): for every task text that, after lower-casing, contains
    "telegram" and also both "visit" and "airdrop page", the classifier
    returns the visit tag: the visit check is evaluated before the chat-join
    check. *)
Theorem get_task_type_visit_first (task_text : string) :
  Str.contains "telegram" (Str.lower task_text) = true ->
  Str.contains "visit" (Str.lower task_text) = true ->
  Str.contains "airdrop page" (Str.lower task_text) = true ->
  get_task_type task_text = "visit".
Proof.
  intros _ Hvisit Hpage. unfold get_task_type.
  rewrite Hvisit, Hpage. reflexivity.
Qed.

Lemma get_task_type_visit_first_witness :
  get_task_type "Visit the airdrop page and join our Telegram" = "visit".
Proof.
  apply (get_task_type_visit_first "Visit the airdrop page and join our Telegram");
    vm_compute; reflexivity.
Defined.

End Classifier.

(** *** src/airdrop.py: selection *)

Section Selection.

Context {P : Type} `{Driver P}.

Lemma contains_empty (s : string) : Str.contains "" s = true.
Proof. destruct s; reflexivity. Qed.

Lemma preserves_optional_text R `{!Frame R} card xpath :
  preserves R (optional_text card xpath).
Proof. unfold optional_text, find_element, text_of. frame. Qed.

Lemma preserves_parse_airdrop_elements R `{!Frame R} els acc :
  preserves R (parse_airdrop_elements els acc).
Proof.
  revert acc. induction els as [|card rest IH]; intros acc; cbn [parse_airdrop_elements].
  - frame.
  - unfold find_element, text_of.
    frame; try apply (preserves_optional_text R); try apply IH.
Qed.

Lemma preserves_get_available_airdrops R `{!Frame R} :
  preserves R get_available_airdrops.
Proof.
  unfold get_available_airdrops, wait_for_elements.
  frame; try apply (preserves_wait_for_element R);
    try apply (preserves_parse_airdrop_elements R).
Qed.

Lemma preserves_select_among R `{!Frame R, !WindowFrame R} airdrops airdrop_name :
  preserves R (select_among airdrops airdrop_name).
Proof.
  unfold select_among. frame; try apply (preserves_click R).
Qed.

Lemma preserves_select_airdrop R `{!Frame R, !WindowFrame R} airdrop_name :
  preserves R (select_airdrop airdrop_name).
Proof.
  unfold select_airdrop. frame.
  - apply (preserves_get_available_airdrops R).
  - apply (preserves_select_among R).
Qed.

Local Open Scope py_scope.

(** The tail of [select_airdrop]: completion check, click, pause. *)
Lemma select_among_resolved first rest airdrop_name a (w : world P) :
  chosen (first :: rest) airdrop_name = Some a ->
  exists w1, same_store w w1 /\
  select_among (first :: rest) airdrop_name w =
    (if bool_decide (is_Some (completed_airdrops w1 !! name a)) then
       logger INFO ("Airdrop '" +:+ name a +:+ "' already completed, skipping") ;;
       ret None
     else
       clicked <- click (element a) ;;
       if clicked : bool then
         logger INFO ("Selected airdrop: " +:+ name a) ;;
         random_wait "medium" ;;
         ret (Some (name a))
       else
         logger ERROR ("Error clicking on airdrop: " +:+ name a) ;;
         ret None) w1.
Proof.
  intros Hch. unfold chosen in Hch. apply (inj Some) in Hch.
  unfold select_among.
  destruct (Str.opt_truthy airdrop_name).
  - destruct (find_requested (default "" airdrop_name) (first :: rest)) as [b|] eqn:E;
      cbn [default] in Hch; subst a.
    + exists w. split; [apply frame_refl|]. reflexivity.
    + eexists. split; [apply (frame_log (R := same_store))|]. reflexivity.
  - subst a. exists w. split; [apply frame_refl|]. reflexivity.
Qed.

Lemma select_among_completed airdrops airdrop_name a (w : world P) :
  chosen airdrops airdrop_name = Some a ->
  is_Some (completed_airdrops w !! name a) ->
  value_of (select_among airdrops airdrop_name w) = Ok None.
Proof.
  intros Hch Hin. destruct airdrops as [|first rest]; [discriminate|].
  destruct (select_among_resolved _ _ _ _ w Hch) as (w1 & [Hs _] & ->).
  rewrite Hs, bool_decide_eq_true_2 by exact Hin. reflexivity.
Qed.

Lemma chosen_singleton (a : airdrop) airdrop_name : chosen [a] airdrop_name = Some a.
Proof.
  cbn. destruct (Str.opt_truthy airdrop_name); [|reflexivity].
  destruct (Str.contains _ _); reflexivity.
Qed.

Lemma find_requested_none req airdrops :
  (forall a, In a airdrops -> Str.contains (Str.lower req) (Str.lower (name a)) = false) ->
  find_requested req airdrops = None.
Proof.
  induction airdrops as [|a rest IH]; intros Hno; [reflexivity|].
  cbn. rewrite (Hno a) by (left; reflexivity).
  apply IH. intros b Hb. apply Hno. right. exact Hb.
Qed.

(** C5: a campaign whose name is already in the Completion Store is skipped:
    when the candidate that [select_airdrop] resolves to (in particular the only
    candidate of the listing) is in the store, the call returns [None], and it
    leaves the store, in memory and on disk, as it was. *)
Theorem select_airdrop_skips_completed airdrop_name (w w1 : world P) airdrops a :
  get_available_airdrops w = (Ok airdrops, w1) ->
  airdrops = [a] \/ chosen airdrops airdrop_name = Some a ->
  is_Some (completed_airdrops w !! name a) ->
  value_of (select_airdrop airdrop_name w) = Ok None /\
  same_store w (world_of (select_airdrop airdrop_name w)).
Proof.
  intros Hget Hch Hin. split; [|apply (preserves_select_airdrop same_store)].
  assert (Hch' : chosen airdrops airdrop_name = Some a).
  { destruct Hch as [-> | Hch]; [apply chosen_singleton | exact Hch]. }
  pose proof (preserves_get_available_airdrops same_store w) as [Hs _].
  rewrite Hget in Hs. cbn in Hs.
  unfold select_airdrop, bind. rewrite Hget.
  apply select_among_completed with (a := a); [exact Hch'|].
  rewrite Hs. exact Hin.
Qed.

(** C3 (amended): for every non-empty candidate list and every requested name
    whose lower-cased form is a substring of no candidate's lower-cased name,
    [select_airdrop] resolves to the first-listed candidate; it returns that
    candidate's name when the name is not in the Completion Store and the click
    on its card succeeds, and [None] otherwise. *)
Theorem select_airdrop_fallback (requested : string) (w w1 : world P) first rest :
  get_available_airdrops w = (Ok (first :: rest), w1) ->
  (forall a, In a (first :: rest) ->
             Str.contains (Str.lower requested) (Str.lower (name a)) = false) ->
  chosen (first :: rest) (Some requested) = Some first /\
  exists w2, same_store w w2 /\
  value_of (select_airdrop (Some requested) w) =
    Ok (if bool_decide (is_Some (completed_airdrops w !! name first)) then None
        else if or_false (value_of (click (element first) w2)) then Some (name first)
             else None).
Proof.
  intros Hget Hno.
  assert (Hreq : Str.opt_truthy (Some requested) = true).
  { destruct requested; [|reflexivity].
    specialize (Hno first (or_introl eq_refl)). cbn [Str.lower] in Hno.
    rewrite contains_empty in Hno. discriminate Hno. }
  assert (Hch : chosen (first :: rest) (Some requested) = Some first).
  { unfold chosen. rewrite Hreq.
    change (default "" (Some requested)) with requested.
    rewrite (find_requested_none _ _ Hno). reflexivity. }
  split; [exact Hch|].
  pose proof (preserves_get_available_airdrops same_store w) as Hs.
  rewrite Hget in Hs. cbn in Hs.
  destruct (select_among_resolved first rest (Some requested) first w1 Hch)
    as (w2 & Hs2 & E).
  exists w2. split; [eapply frame_trans; eassumption|].
  unfold select_airdrop, bind. rewrite Hget, E.
  destruct Hs as [Hs _], Hs2 as [Hs2 _]. rewrite Hs2, Hs. clear E.
  destruct (bool_decide (is_Some (completed_airdrops w !! name first)));
    [reflexivity|].
  unfold bind. destruct (click_ok (element first) w2) as (b & w3 & ->). cbn.
  destruct b; cbn; [|reflexivity].
  reflexivity.
Qed.

End Selection.

Lemma select_airdrop_skips_completed_witness :
  value_of (select_airdrop None Scripted.alpha_done) = Ok None /\
  same_store Scripted.alpha_done (world_of (select_airdrop None Scripted.alpha_done)).
Proof.
  eapply (select_airdrop_skips_completed None Scripted.alpha_done).
  - vm_compute. reflexivity.
  - left. reflexivity.
  - vm_compute. eexists. reflexivity.
Defined.

(** C3, as stated, fails: with "Beta" already in the store, a request that
    matches no candidate of [Beta; Gamma] yields [None], not "Beta". *)
Lemma fallback_selection_may_skip :
  ~ (forall (w w1 : world Scripted.page_script) first rest (requested : string),
        get_available_airdrops w = (Ok (first :: rest), w1) ->
        (forall a, In a (first :: rest) ->
                   Str.contains (Str.lower requested) (Str.lower (name a)) = false) ->
        value_of (select_airdrop (Some requested) w) = Ok (Some (name first))).
Proof.
  intros claim.
  pose (w := Scripted.beta_gamma {["Beta" := Scripted.done_record]}).
  specialize (claim w (world_of (get_available_airdrops w))
                Scripted.beta [Scripted.gamma] "zeta").
  assert (Hget : get_available_airdrops w =
                 (Ok [Scripted.beta; Scripted.gamma],
                  world_of (get_available_airdrops w)))
    by (vm_compute; reflexivity).
  specialize (claim Hget).
  assert (Hno : forall a, In a [Scripted.beta; Scripted.gamma] ->
                          Str.contains (Str.lower "zeta") (Str.lower (name a)) = false).
  { intros a [<- | [<- | []]]; reflexivity. }
  specialize (claim Hno). vm_compute in claim. discriminate claim.
Qed.

Lemma select_airdrop_fallback_witness :
  chosen [Scripted.beta; Scripted.gamma] (Some "zeta") = Some Scripted.beta /\
  exists w2, same_store (Scripted.beta_gamma ∅) w2 /\
  value_of (select_airdrop (Some "zeta") (Scripted.beta_gamma ∅)) =
    Ok (if bool_decide (is_Some (completed_airdrops (Scripted.beta_gamma ∅)
                                   !! name Scripted.beta))
        then None
        else if or_false (value_of (click (element Scripted.beta) w2))
             then Some (name Scripted.beta)
             else None).
Proof.
  apply (select_airdrop_fallback "zeta" (Scripted.beta_gamma ∅)
           (world_of (get_available_airdrops (Scripted.beta_gamma ∅)))
           Scripted.beta [Scripted.gamma]).
  - vm_compute. reflexivity.
  - intros a [<- | [<- | []]]; reflexivity.
Defined.


(** *** src/browser.py: the new-tab action *)

Section NewTab.

Context {P : Type} `{Driver P}.

Local Open Scope py_scope.

Lemma handle_eqb_eq (a b : handle) : handle_eqb a b = true <-> a = b.
Proof.
  destruct a as [x], b as [y]. cbn. rewrite Nat.eqb_eq.
  split; [intros ->; reflexivity | intros [= ->]; reflexivity].
Qed.

Lemma open_handle (h : handle) (ws : list handle) :
  existsb (handle_eqb h) ws = true <-> In h ws.
Proof.
  rewrite existsb_exists. split.
  - intros (x & Hin & E). apply handle_eqb_eq in E. subst x. exact Hin.
  - intros Hin. exists h. split; [exact Hin | apply handle_eqb_eq; reflexivity].
Qed.


Lemma switch_to_first_other_run current handles (w : world P) :
  switch_to_first_other current handles w =
    match first_other current handles with
    | Some h => (switch_to_window h ;; ret (Some h)) w
    | None => (Ok None, w)
    end.
Proof.
  induction handles as [|h rest IH]; [reflexivity|].
  cbn [switch_to_first_other first_other List.find].
  destruct (negb (handle_eqb h current)); [reflexivity|exact IH].
Qed.

(** A switch that went through: the handle was open, and is now focused. *)
Lemma switch_to_window_ok h (w w' : world P) :
  switch_to_window h w = (Ok tt, w') ->
  In h (windows w) /\ exists p, w' = set_focus h (set_ext p w).
Proof.
  unfold switch_to_window. destruct (existsb _ _) eqn:E; [|discriminate].
  apply open_handle in E.
  destruct (driver_switch_to_window _ _ _ _) as [[[]|e] p]; [|discriminate].
  intros [= <-]. split; [exact E|]. exists p. reflexivity.
Qed.


(** The callback of a new-tab action, under the [try] that wraps it: it never
    raises. *)
Lemma guarded_callback_ok {A} (action_callback : M P A) (w : world P) :
  exists r w',
    try_except (r <- action_callback ;; ret (Some r))
      (fun e => Some (logger ERROR ("Error in new tab: " +:+ exn_str e) ;; ret None)) w
    = (Ok r, w') /\
    windows w' = windows (world_of (action_callback w)) /\
    focus w' = focus (world_of (action_callback w)).
Proof.
  unfold_monad. destruct (action_callback w) as [[a|e] w1]; cbn; eauto.
Qed.

(** The steps of a new-tab action that found a tab to switch to. *)
Lemma new_tab_action_steps {A} (action_callback : M P A) (w : world P) h :
  first_other (focus w) (windows w) = Some h ->
  new_tab_action action_callback w =
    (switch_to_window h ;;
     result <- try_except
                 (r <- action_callback ;; ret (Some r))
                 (fun e => Some (logger ERROR ("Error in new tab: " +:+ exn_str e) ;;
                                 ret None)) ;;
     handles <- window_handles ;;
     (if 1 <? length handles then driver_close else ret tt) ;;
     switch_to_window (focus w) ;;
     ret result) w.
Proof.
  intros E. unfold new_tab_action, current_window_handle, window_handles. unfold_monad.
  rewrite switch_to_first_other_run, E. unfold_monad.
  destruct (switch_to_window h w) as [[[]|e] w1]; reflexivity.
Qed.

End NewTab.

(** *** src/tasks/base.py: verification and the generic task *)

Section Verification.

Context {P : Type} `{Driver P}.

Local Open Scope py_scope.

(** C4 (amended): for every task element, the verify step returns true when a
    "completed" marker element is present; when the marker is absent it
    searches for a confirm/verify/done control and, if one is found, clicks it,
    pauses and returns true without looking for the marker again; when both
    the marker and the confirm control are absent it returns false. *)
Theorem check_task_completion_cases (task_element : elem) (w : world P) :
  (forall marker w1,
      find_element task_element Settings.task_completed w = (Ok marker, w1) ->
      value_of (check_task_completion task_element w) = Ok true) /\
  (forall msg w1 confirm_button w2,
      find_element task_element Settings.task_completed w
        = (Raise (NoSuchElementException msg), w1) ->
      find_element task_element confirm_xpath
        (add_log (WARNING, "Task not marked as completed automatically") w1)
        = (Ok confirm_button, w2) ->
      check_task_completion task_element w =
        (Ok true,
         world_of ((_ <- click confirm_button ;;
                    logger INFO "Clicked task confirmation button" ;;
                    random_wait "short") w2))) /\
  (forall msg w1 msg' w2,
      find_element task_element Settings.task_completed w
        = (Raise (NoSuchElementException msg), w1) ->
      find_element task_element confirm_xpath
        (add_log (WARNING, "Task not marked as completed automatically") w1)
        = (Raise (NoSuchElementException msg'), w2) ->
      value_of (check_task_completion task_element w) = Ok false).
Proof.
  unfold check_task_completion. unfold_monad. repeat split.
  - intros marker w1 ->. reflexivity.
  - intros msg w1 c w2 -> ->.
    destruct (click_ok c w2) as (b & w3 & E). rewrite E. reflexivity.
  - intros msg w1 msg' w2 -> ->. reflexivity.
Qed.


End Verification.

(** C4, as stated, fails: where no marker is shown but a confirm button is, the
    source answers true after the click, while a step that looked for the
    marker again would answer false. *)
Lemma check_task_completion_does_not_recheck :
  ~ (forall (w : world Scripted.page_script) (task_element : elem),
        value_of (check_task_completion task_element w)
        = value_of (verify_as_specified task_element w)).
Proof.
  intros claim. specialize (claim Scripted.unmarked_task (Elem 7)).
  vm_compute in claim. discriminate claim.
Qed.

Lemma check_task_completion_cases_witness :
  check_task_completion (Elem 7) Scripted.unmarked_task =
    (Ok true,
     world_of ((_ <- click (Elem 901) ;;
                logger INFO "Clicked task confirmation button" ;;
                random_wait "short")%py
                 (world_of (find_element (Elem 7) confirm_xpath
                    (add_log (WARNING, "Task not marked as completed automatically")
                       (world_of (find_element (Elem 7) Settings.task_completed
                                    Scripted.unmarked_task))))))).
Proof.
  eapply (proj1 (proj2 (check_task_completion_cases (Elem 7) Scripted.unmarked_task)));
    vm_compute; reflexivity.
Defined.


(** *** src/browser.py: what the callbacks and the new-tab action do to the windows *)

Section WindowDiscipline.

Context {P : Type} `{Driver P}.

Local Open Scope py_scope.

Lemma preserves_scroll_page R `{!Frame R} direction amount :
  preserves R (scroll_page direction amount).
Proof. unfold scroll_page. frame. Qed.

Lemma preserves_for_range R `{!Frame R} n (body : M P unit) :
  preserves R body -> preserves R (for_range n body).
Proof. intros Hb. induction n as [|n IH]; cbn [for_range]; frame. Qed.

Lemma preserves_human_like_browsing R `{!Frame R} :
  preserves R human_like_browsing.
Proof.
  unfold human_like_browsing.
  frame; apply (preserves_for_range R); apply (preserves_scroll_page R).
Qed.

Lemma preserves_telegram_action R `{!Frame R} telegram_url :
  preserves R (telegram_action telegram_url).
Proof.
  unfold telegram_action.
  frame; try apply (preserves_wait_for_element R);
    try apply (preserves_human_like_browsing R).
Qed.

Lemma first_other_some current handles h :
  first_other current handles = Some h -> In h handles /\ h <> current.
Proof.
  intros E. apply List.find_some in E as [Hin Hne]. split; [exact Hin|].
  intros ->. apply negb_true_iff in Hne.
  assert (handle_eqb current current = true) by (apply handle_eqb_eq; reflexivity).
  congruence.
Qed.


Lemma two_handles (a b : handle) (l : list handle) :
  In a l -> In b l -> a <> b -> (1 <? length l) = true.
Proof.
  intros Ha Hb Hne. apply Nat.ltb_lt.
  destruct l as [|x [|y l']]; cbn in *;
    [tauto | destruct Ha as [<-|[]], Hb as [<-|[]]; congruence | lia].
Qed.


End WindowDiscipline.



(** *** src/utils/ai.py and src/tasks/telegram.py: the advisory call *)

Section Advisory.

Context {P : Type} `{Driver P}.

Local Open Scope py_scope.

(** What [get_ai_assistance] answers, case by case. *)
Lemma get_ai_assistance_run prompt model max_tokens (w : world P) :
  let key := os_getenv "OPENAI_API_KEY" (ext w) in
  if Str.opt_truthy key then
    match chat_completion_create key (Str.or_else model Settings.OPENAI_MODEL) prompt
            (Str.int_or_else max_tokens Settings.OPENAI_MAX_TOKENS) (ext w) with
    | (Ok answer, p) =>
        get_ai_assistance prompt model max_tokens w
        = (Ok answer, set_ext p (set_api_key key w))
    | (Raise e, p) =>
        get_ai_assistance prompt model max_tokens w
        = (Ok ("Error getting AI assistance: " +:+ exn_str e),
           add_log (ERROR, "Error getting response from OpenAI: " +:+ exn_str e)
             (set_ext p (set_api_key key w)))
    end
  else
    get_ai_assistance prompt model max_tokens w
    = (Ok "AI assistance unavailable - missing API key",
       add_log (ERROR, "OpenAI API key not found in environment variables") w).
Proof.
  cbn zeta. unfold get_ai_assistance, setup_openai. unfold_monad.
  destruct (Str.opt_truthy (os_getenv "OPENAI_API_KEY" (ext w))); cbn; [|reflexivity].
  destruct (chat_completion_create _ _ _ _ _) as [[answer|e] p]; reflexivity.
Qed.

Lemma get_ai_assistance_ok prompt model max_tokens (w : world P) :
  exists s w', get_ai_assistance prompt model max_tokens w = (Ok s, w').
Proof.
  pose proof (get_ai_assistance_run prompt model max_tokens w) as Hrun.
  cbn zeta in Hrun.
  destruct (Str.opt_truthy _); [|eauto].
  destruct (chat_completion_create _ _ _ _ _) as [[answer|e] p]; eauto.
Qed.

(** C8: a failure of the text-generation call never aborts the run.
    [get_ai_assistance] never raises: with no API key it answers one
    placeholder, and for every exception of the API call another one; and a
    chat-join task that has found its link goes on, whatever the advisory call
    did, to the click and the new-tab action: its answer is the outcome of
    those steps and the verification check after them, and when the new-tab
    action returns it is the outcome of the verification check. *)
Theorem advisory_fault_does_not_abort :
  (forall prompt model max_tokens (w : world P),
      let key := os_getenv "OPENAI_API_KEY" (ext w) in
      exists s w',
        get_ai_assistance prompt model max_tokens w = (Ok s, w') /\
        (Str.opt_truthy key = false ->
         s = "AI assistance unavailable - missing API key") /\
        (forall e p,
            Str.opt_truthy key = true ->
            chat_completion_create key (Str.or_else model Settings.OPENAI_MODEL) prompt
              (Str.int_or_else max_tokens Settings.OPENAI_MAX_TOKENS) (ext w)
            = (Raise e, p) ->
            s = "Error getting AI assistance: " +:+ exn_str e)) /\
  (forall (task_element : elem) (w w1 w2 w3 : world P) telegram_button telegram_url,
      expand_task task_element w = (Ok true, w1) ->
      find_element task_element Settings.telegram_button w1 = (Ok telegram_button, w2) ->
      get_attribute telegram_button "href" w2 = (Ok telegram_url, w3) ->
      exists telegram_info w4,
        get_ai_assistance (telegram_prompt telegram_url) None None w3
        = (Ok telegram_info, w4) /\
        value_of (TelegramTask_complete_task task_element w)
        = Ok (or_false
                (value_of
                   ((_ <- click telegram_button ;;
                     _ <- new_tab_action (telegram_action telegram_url) ;;
                     check_task_completion task_element)
                      (add_log (INFO, "Telegram group info from AI: " +:+ telegram_info)
                         w4)))) /\
        forall r w5,
          new_tab_action (telegram_action telegram_url)
            (world_of (click telegram_button
                         (add_log (INFO, "Telegram group info from AI: " +:+ telegram_info)
                            w4)))
          = (Ok r, w5) ->
          value_of (TelegramTask_complete_task task_element w)
          = Ok (or_false (value_of (check_task_completion task_element w5)))).
Proof.
  split.
  - intros prompt model max_tokens w. cbn zeta.
    pose proof (get_ai_assistance_run prompt model max_tokens w) as Hrun.
    cbn zeta in Hrun.
    destruct (Str.opt_truthy (os_getenv "OPENAI_API_KEY" (ext w))).
    + destruct (chat_completion_create _ _ _ _ _) as [[answer|e] p] eqn:E;
        do 2 eexists; (split; [exact Hrun|]); (split; [discriminate|]).
      * intros e p' _ [=].
      * intros e' p' _ [= <- _]. reflexivity.
    + do 2 eexists. split; [exact Hrun|]. split; [reflexivity|]. discriminate.
  - intros task w w1 w2 w3 btn url Hexp Hfind Hattr.
    destruct (get_ai_assistance_ok (telegram_prompt url) None None w3)
      as (info & w4 & Hai).
    exists info, w4. split; [exact Hai|].
    assert (Hrun :
      value_of (TelegramTask_complete_task task w)
      = Ok (or_false
              (value_of
                 ((_ <- click btn ;;
                   _ <- new_tab_action (telegram_action url) ;;
                   check_task_completion task)
                    (add_log (INFO, "Telegram group info from AI: " +:+ info) w4))))).
    { unfold TelegramTask_complete_task. unfold bind at 1. rewrite Hexp. cbn [negb].
      unfold try_except at 1. unfold bind at 1. rewrite Hfind.
      cbn [elem_truthy negb].
      unfold bind at 1. rewrite Hattr.
      unfold bind at 1. rewrite Hai.
      unfold logger at 1. unfold bind at 1.
      match goal with
      | |- context [bind (click btn) ?k ?w0] =>
          destruct (bind (click btn) k w0) as [[v|e] w6]; reflexivity
      end. }
    split; [exact Hrun|].
    intros r w5 Htab. rewrite Hrun. f_equal. f_equal.
    destruct (click_ok btn (add_log (INFO, "Telegram group info from AI: " +:+ info) w4))
      as (b & wc & Hclick).
    rewrite Hclick in Htab. change (world_of (Ok b, wc)) with wc in Htab.
    unfold bind at 1. rewrite Hclick. unfold bind at 1. rewrite Htab. reflexivity.
Qed.

End Advisory.

Lemma advisory_fault_does_not_abort_witness :
  get_ai_assistance (telegram_prompt (Some "https://t.me/alphadrop")) None None
    Scripted.failing_api
  = (Ok "Error getting AI assistance: Rate limit reached",
     add_log (ERROR, "Error getting response from OpenAI: Rate limit reached")
       (set_api_key (Some "sk-test") Scripted.failing_api)) /\
  value_of (TelegramTask_complete_task (Elem 7) Scripted.failing_api) = Ok true.
Proof.
  split.
  - destruct (proj1 advisory_fault_does_not_abort
                (telegram_prompt (Some "https://t.me/alphadrop")) None None
                Scripted.failing_api) as (s & w' & E & _ & Hs).
    rewrite E.
    rewrite (Hs (OtherException "Rate limit reached") (ext Scripted.failing_api)
               eq_refl eq_refl) in E |- *.
    revert E. vm_compute. intros [= <-]. reflexivity.
  - destruct (proj2 advisory_fault_does_not_abort (Elem 7) Scripted.failing_api
                (world_of (expand_task (Elem 7) Scripted.failing_api))
                (world_of (find_element (Elem 7) Settings.telegram_button
                             (world_of (expand_task (Elem 7) Scripted.failing_api))))
                (world_of (find_element (Elem 7) Settings.telegram_button
                             (world_of (expand_task (Elem 7) Scripted.failing_api))))
                (Elem 902) (Some "https://t.me/alphadrop"))
      as (info & w4 & Hai & Hrun & _);
      [vm_compute; reflexivity ..|].
    vm_compute in Hai. injection Hai as <- <-.
    rewrite Hrun. vm_compute. reflexivity.
Defined.

(** *** Timestamps *)

Section Timestamps.

Lemma is_digit_digit (n : nat) : Str.is_digit (Str.digit n) = true.
Proof.
  unfold Str.is_digit, Str.digit.
  pose proof (Nat.mod_upper_bound n 10 ltac:(lia)) as Hlt.
  rewrite nat_ascii_embedding by lia.
  apply andb_true_iff. split; apply Nat.leb_le; lia.
Qed.

Lemma dec_fuel_small fuel n : n < 10 -> Str.dec_fuel fuel n = String (Str.digit n) "".
Proof.
  intros Hn. destruct fuel; cbn [Str.dec_fuel]; [reflexivity|].
  rewrite (proj2 (Nat.ltb_lt n 10) Hn). reflexivity.
Qed.

Lemma dec_fuel_step fuel n :
  10 <= n ->
  Str.dec_fuel (S fuel) n = (Str.dec_fuel fuel (n / 10) ++ String (Str.digit n) "")%string.
Proof.
  intros Hn. cbn [Str.dec_fuel].
  rewrite (proj2 (Nat.ltb_ge n 10) Hn). reflexivity.
Qed.

(** Two decimal digits, for every number below 100. *)
Lemma dec2_shape n :
  n < 100 ->
  exists c1 c2, Str.dec2 n = String c1 (String c2 "") /\
                Str.is_digit c1 = true /\ Str.is_digit c2 = true.
Proof.
  intros Hn. unfold Str.dec2, Str.dec.
  destruct (n <? 10) eqn:E.
  - apply Nat.ltb_lt in E. rewrite dec_fuel_small by exact E.
    exists "0"%char, (Str.digit n). repeat split; try reflexivity; apply is_digit_digit.
  - apply Nat.ltb_ge in E. destruct n as [|k]; [lia|].
    rewrite dec_fuel_step by exact E.
    rewrite dec_fuel_small by (apply Nat.Div0.div_lt_upper_bound; lia).
    exists (Str.digit (S k / 10)), (Str.digit (S k)).
    repeat split; apply is_digit_digit.
Qed.

(** Four decimal digits, for every number from 1000 to 9999. *)
Lemma dec4_shape n :
  1000 <= n -> n < 10 * 1000 ->
  exists c1 c2 c3 c4,
    Str.dec n = String c1 (String c2 (String c3 (String c4 ""))) /\
    Str.is_digit c1 = true /\ Str.is_digit c2 = true /\
    Str.is_digit c3 = true /\ Str.is_digit c4 = true.
Proof.
  intros Hlo Hhi. unfold Str.dec.
  replace (Str.dec_fuel n n) with (Str.dec_fuel (S (S (S (n - 3)))) n)
    by (f_equal; lia).
  assert (H1 : 10 <= n) by lia.
  assert (H2 : 10 <= n / 10) by (apply Nat.div_le_lower_bound; lia).
  assert (H3 : 10 <= n / 10 / 10).
  { apply Nat.div_le_lower_bound; [lia|]. apply Nat.div_le_lower_bound; lia. }
  assert (H4 : n / 10 / 10 / 10 < 10)
    by (repeat apply Nat.Div0.div_lt_upper_bound; lia).
  rewrite (dec_fuel_step _ n H1), (dec_fuel_step _ _ H2), (dec_fuel_step _ _ H3).
  rewrite (dec_fuel_small _ _ H4).
  exists (Str.digit (n / 10 / 10 / 10)), (Str.digit (n / 10 / 10)),
         (Str.digit (n / 10)), (Str.digit n).
  repeat split; try apply is_digit_digit.
Qed.

Lemma format_time_well_formed (t : struct_time) :
  well_formed_timestamp (format_time t) = true.
Proof.
  pose proof (tm_range t) as Hr.
  repeat (apply andb_true_iff in Hr; destruct Hr as [Hr ?]).
  repeat match goal with
         | Hle : (_ <=? _)%Z = true |- _ => apply Z.leb_le in Hle
         end.
  unfold format_time.
  destruct (dec4_shape (Z.to_nat (tm_year t))) as (y1 & y2 & y3 & y4 & -> & ? & ? & ? & ?);
    [lia | lia |].
  destruct (dec2_shape (Z.to_nat (tm_mon t))) as (m1 & m2 & -> & ? & ?); [lia|].
  destruct (dec2_shape (Z.to_nat (tm_mday t))) as (a1 & a2 & -> & ? & ?); [lia|].
  destruct (dec2_shape (Z.to_nat (tm_hour t))) as (h1 & h2 & -> & ? & ?); [lia|].
  destruct (dec2_shape (Z.to_nat (tm_min t))) as (n1 & n2 & -> & ? & ?); [lia|].
  destruct (dec2_shape (Z.to_nat (tm_sec t))) as (s1 & s2 & -> & ? & ?); [lia|].
  cbv -[Str.is_digit].
  repeat match goal with
         | Hd : Str.is_digit _ = true |- _ => rewrite Hd; clear Hd
         end.
  reflexivity.
Qed.

End Timestamps.

(** *** src/utils/helpers.py and src/airdrop.py: the Completion Store *)

Section Store.

Context {P : Type} `{Driver P}.

Local Open Scope py_scope.

(** [load_json] never raises, and leaves the disk and the external state as
    they were. *)
Lemma load_json_ok file_path default (w : world P) :
  exists m w', load_json file_path default w = (Ok m, w') /\
               fs w' = fs w /\ ext w' = ext w.
Proof.
  unfold load_json, os_path_exists_file, open_json_load. unfold_monad.
  destruct (bool_decide _); cbn; [|eauto].
  destruct (read_fault (fs w)) as [[]|]; cbn; eauto.
  destruct (completed_file (fs w)) as [[|m]|]; cbn; eauto.
Qed.

(** On a missing file [load_json] answers its default, and on a file that does
    not parse it logs an error and answers its default. *)
Lemma load_json_missing_or_malformed file_path (w : world P) :
  (completed_file (fs w) = None ->
   value_of (load_json file_path (Some ∅) w) = Ok ∅) /\
  (completed_file (fs w) = Some Malformed -> read_fault (fs w) = None ->
   load_json file_path (Some ∅) w
   = (Ok ∅, add_log (ERROR, "Error decoding JSON from " +:+ file_path) w)).
Proof.
  unfold load_json, os_path_exists_file, open_json_load. unfold_monad.
  split.
  - intros ->. reflexivity.
  - intros Hc Hr. rewrite Hc. cbn. rewrite Hr, Hc. reflexivity.
Qed.

(** The same two cases for [_load_completed_airdrops]. *)
Lemma load_completed_airdrops_missing_or_malformed (w : world P) :
  (completed_file (fs w) = None -> _load_completed_airdrops w = (Ok ∅, w)) /\
  (completed_file (fs w) = Some Malformed -> read_fault (fs w) = None ->
   _load_completed_airdrops w
   = (Ok ∅, add_log (WARNING,
                     "Could not load completed airdrops file, creating new one") w)).
Proof.
  unfold _load_completed_airdrops, os_path_exists_file, open_json_load. unfold_monad.
  split.
  - intros ->. reflexivity.
  - intros Hc Hr. rewrite Hc. cbn. rewrite Hr, Hc. reflexivity.
Qed.

(** With a readable file, [get_completed_airdrops] answers the stored mapping. *)
Lemma get_completed_airdrops_stored (w : world P) :
  read_fault (fs w) = None ->
  exists w', get_completed_airdrops w = (Ok (stored (fs w)), w') /\
             fs w' = fs w /\ ext w' = ext w.
Proof.
  intros Hr. unfold get_completed_airdrops, load_json, os_path_exists_file,
    open_json_load, stored. unfold_monad.
  destruct (completed_file (fs w)) as [[|m]|] eqn:Hc; cbn; rewrite ?Hr, ?Hc; eauto.
Qed.

(** When the data directory can be written to, [save_json] answers [True] and
    the file holds the data. *)
Lemma save_json_run data file_path (w : world P) :
  write_fault (fs w) = None ->
  exists w',
    save_json data file_path w = (Ok true, w') /\
    read_fault (fs w') = read_fault (fs w) /\ write_fault (fs w') = None /\
    stored (fs w') = data.
Proof.
  intros Hw. unfold save_json, create_dir_if_not_exists, os_path_exists_dir,
    os_makedirs, open_json_dump. unfold_monad.
  destruct (data_dir_exists (fs w)) eqn:Hd; cbn; rewrite ?Hw; cbn; rewrite ?Hw, ?Hd; cbn;
    (eexists; split; [reflexivity|]); cbn; auto.
Qed.

(** On a disk that does not fault, [mark_airdrop_completed] answers [True] and
    rewrites the file with the record inserted. *)
Lemma mark_airdrop_completed_run airdrop_name st (w : world P) :
  read_fault (fs w) = None -> write_fault (fs w) = None ->
  exists w',
    mark_airdrop_completed airdrop_name st w = (Ok true, w') /\
    read_fault (fs w') = None /\ write_fault (fs w') = None /\
    stored (fs w') =
      <[airdrop_name := {| completed_date := format_time (time_localtime (ext w));
                           status := st |}]> (stored (fs w)).
Proof.
  intros Hr Hw. unfold mark_airdrop_completed.
  destruct (get_completed_airdrops_stored w Hr) as (w0 & E & Hfs & Hext).
  unfold bind at 1. rewrite E.
  unfold time_strftime. unfold bind at 1. rewrite Hext.
  match goal with
  | |- context [save_json ?d ?p w0] =>
      destruct (save_json_run d p w0) as (w' & Es & Hr' & Hw' & Hs);
      [rewrite Hfs; exact Hw|]
  end.
  exists w'. rewrite Hfs in Hr'. rewrite Hr in Hr'. auto.
Qed.

(** C6 (amended): on a file system that does not fault (the backing file can be
    opened for reading and for writing), for every campaign name and status
    [mark_airdrop_completed] answers [True], and a fresh load right after it
    yields a mapping with a record for that name, carrying the same status and
    a well-formed timestamp; a second call for the same name with another
    status overwrites that entry, so the mapping keeps its size. *)
Theorem mark_then_load airdrop_name status1 status2 (w : world P) :
  read_fault (fs w) = None ->
  write_fault (fs w) = None ->
  let w1 := world_of (mark_airdrop_completed airdrop_name status1 w) in
  let w2 := world_of (mark_airdrop_completed airdrop_name status2 w1) in
  value_of (mark_airdrop_completed airdrop_name status1 w) = Ok true /\
  exists m1 m2 record1 record2,
    value_of (get_completed_airdrops w1) = Ok m1 /\
    m1 !! airdrop_name = Some record1 /\
    status record1 = status1 /\
    well_formed_timestamp (completed_date record1) = true /\
    value_of (get_completed_airdrops w2) = Ok m2 /\
    m2 !! airdrop_name = Some record2 /\
    status record2 = status2 /\
    size m2 = size m1.
Proof.
  intros Hr Hw. cbn zeta.
  destruct (mark_airdrop_completed_run airdrop_name status1 w Hr Hw)
    as (w1 & E1 & Hr1 & Hw1 & S1).
  rewrite E1. change (world_of (Ok true, w1)) with w1.
  destruct (mark_airdrop_completed_run airdrop_name status2 w1 Hr1 Hw1)
    as (w2 & E2 & Hr2 & Hw2 & S2).
  rewrite E2. change (world_of (Ok true, w2)) with w2.
  destruct (get_completed_airdrops_stored w1 Hr1) as (w1' & G1 & _).
  destruct (get_completed_airdrops_stored w2 Hr2) as (w2' & G2 & _).
  rewrite G1, G2. split; [reflexivity|].
  do 4 eexists.
  split; [reflexivity|]. split; [rewrite S1; apply lookup_insert_eq|].
  split; [reflexivity|]. split; [apply format_time_well_formed|].
  split; [reflexivity|]. split; [rewrite S2; apply lookup_insert_eq|].
  split; [reflexivity|].
  rewrite S2. apply map_size_insert_Some.
  rewrite S1, lookup_insert_eq. eexists. reflexivity.
Qed.

End Store.

(** C6, as stated, fails: when the data directory cannot be written to,
    [mark_airdrop_completed] answers [False] and a fresh load has no record. *)
Lemma read_only_disk_loses_record :
  ~ (forall (w : world Scripted.page_script) (airdrop_name status1 : string),
        exists m record1,
          value_of (get_completed_airdrops
                      (world_of (mark_airdrop_completed airdrop_name status1 w)))
          = Ok m /\
          m !! airdrop_name = Some record1 /\ status record1 = status1).
Proof.
  intros claim.
  destruct (claim Scripted.read_only "AlphaDrop" "success") as (m & r & E & L & _).
  vm_compute in E. injection E as <-. vm_compute in L. discriminate L.
Qed.

Lemma mark_then_load_witness :
  value_of (mark_airdrop_completed "AlphaDrop" "partial" Scripted.alpha_fresh) = Ok true /\
  exists m1 m2 record1 record2,
    value_of (get_completed_airdrops
                (world_of (mark_airdrop_completed "AlphaDrop" "partial"
                             Scripted.alpha_fresh))) = Ok m1 /\
    m1 !! "AlphaDrop" = Some record1 /\
    status record1 = "partial" /\
    well_formed_timestamp (completed_date record1) = true /\
    value_of (get_completed_airdrops
                (world_of (mark_airdrop_completed "AlphaDrop" "success"
                   (world_of (mark_airdrop_completed "AlphaDrop" "partial"
                                Scripted.alpha_fresh))))) = Ok m2 /\
    m2 !! "AlphaDrop" = Some record2 /\
    status record2 = "success" /\
    size m2 = size m1.
Proof.
  apply (mark_then_load "AlphaDrop" "partial" "success" Scripted.alpha_fresh);
    vm_compute; reflexivity.
Defined.

(** C7 (the code at the failing input): the completion file exists but
    [open] raises a permission error.  [_load_completed_airdrops], whose
    [except] names JSONDecodeError and FileNotFoundError only, lets the
    exception out, and the [AirdropManager] is never built; [load_json], which
    also catches [Exception], answers the empty mapping. *)
Theorem load_completed_airdrops_propagates_read_fault :
  value_of (_load_completed_airdrops Scripted.unreadable)
  = Raise (OtherException "Permission denied") /\
  value_of (AirdropManager_init Scripted.unreadable)
  = Raise (OtherException "Permission denied") /\
  value_of (get_completed_airdrops Scripted.unreadable) = Ok ∅.
Proof. vm_compute. repeat split; reflexivity. Qed.

(** *** The orchestrator *)

Section Orchestrator.

Context {P : Type} `{Driver P}.

Local Open Scope py_scope.

Lemma preserves_expand_task R `{!Frame R, !WindowFrame R} task_element :
  preserves R (expand_task task_element).
Proof. unfold expand_task, find_element. frame; apply (preserves_click R). Qed.

Lemma preserves_check_task_completion R `{!Frame R, !WindowFrame R} task_element :
  preserves R (check_task_completion task_element).
Proof.
  unfold check_task_completion, find_element. frame; apply (preserves_click R).
Qed.

Lemma preserves_switch_to_first_other (R : world P -> world P -> Prop)
    `{!Frame R, !WindowFrame R} current handles :
  preserves R (switch_to_first_other current handles).
Proof.
  induction handles as [|h rest IH]; cbn [switch_to_first_other]; frame.
Qed.

Lemma preserves_new_tab_action R `{!Frame R, !WindowFrame R} {A} (cb : M P A) :
  preserves R cb -> preserves R (new_tab_action cb).
Proof.
  intros Hcb. unfold new_tab_action.
  frame; apply (preserves_switch_to_first_other R).
Qed.

Lemma preserves_get_ai_assistance R `{!Frame R} prompt model max_tokens :
  preserves R (get_ai_assistance prompt model max_tokens).
Proof.
  unfold get_ai_assistance, setup_openai. frame.
  intros w. destruct (chat_completion_create _ _ _ _ _). apply frame_ext.
Qed.

Lemma preserves_TelegramTask_complete_task R `{!Frame R, !WindowFrame R} task_element :
  preserves R (TelegramTask_complete_task task_element).
Proof.
  unfold TelegramTask_complete_task, find_element, get_attribute.
  frame; first [ apply (preserves_expand_task R)
               | apply (preserves_get_ai_assistance R)
               | apply (preserves_click R)
               | apply (preserves_check_task_completion R)
               | apply (preserves_new_tab_action R);
                 apply (preserves_telegram_action R) ].
Qed.

Lemma wait_for_element_ok {A} (c : Z -> string -> pageop P A) value timeout (w : world P) :
  exists r w', wait_for_element c value timeout w = (Ok r, w').
Proof.
  unfold wait_for_element. unfold_monad.
  destruct (c _ value (focus w) (ext w)) as [[a|e] p]; cbn; eauto.
Qed.

Lemma preserves_navigate_to_listing R `{!Frame R, !WindowFrame R} url :
  preserves R (navigate_to_listing url).
Proof.
  unfold navigate_to_listing, get.
  frame; first [ apply (preserves_wait_for_element R) | apply (preserves_click R) ].
Qed.

Lemma preserves_with_browser R `{!Frame R, !WindowFrame R} {A} (body : M P A) :
  preserves R body -> preserves R (with_browser body).
Proof.
  intros Hb w. unfold with_browser. specialize (Hb w).
  destruct (body w) as [r w1]. cbn in *.
  eapply frame_trans; [exact Hb|].
  eapply frame_trans; [apply frame_windows | apply frame_log].
Qed.

(** Building the manager reads the completion file and never writes it. *)
Lemma preserves_AirdropManager_init :
  preserves (P := P) same_disk AirdropManager_init.
Proof.
  intros w. unfold AirdropManager_init, _load_completed_airdrops, os_path_exists_file,
    open_json_load. unfold_monad.
  destruct (bool_decide _); cbn; [|reflexivity].
  destruct (read_fault (fs w)) as [[]|]; cbn; try reflexivity.
  destruct (completed_file (fs w)) as [[|m]|]; reflexivity.
Qed.

(** No run of [main] writes the completion file. *)
Lemma preserves_main args_airdrop args_url :
  preserves (P := P) same_disk (main args_airdrop args_url).
Proof.
  unfold main, complete_all_tasks.
  frame; first [ apply (preserves_with_browser same_disk) | idtac ].
  frame; first [ apply preserves_AirdropManager_init
               | apply (preserves_navigate_to_listing same_disk)
               | apply (preserves_select_airdrop same_disk) ].
Qed.

End Orchestrator.

(** C1 (the code at the failing input): [complete_all_tasks] is a stub.  Its
    body is the docstring alone: whatever the campaign and the state of the
    page, a call returns [None] and changes nothing, so no task is run and no
    record is made; and no run of [main] writes the completion file.
    Concretely (scenario 1): from an empty store, with the single candidate
    "AlphaDrop" and no requested name, [main] selects "AlphaDrop", logs that
    it could not complete all tasks, and ends with the store empty, in the
    manager's mapping and in the file. *)
Theorem complete_all_tasks_records_nothing :
  (forall (P : Type) (D : Driver P) (airdrop_name : string) (w : world P),
      complete_all_tasks airdrop_name w = (Ok None, w)) /\
  (forall (P : Type) (D : Driver P) (args_airdrop : option string) (args_url : string)
          (w : world P),
      fs (world_of (main args_airdrop args_url w)) = fs w) /\
  value_of (select_airdrop None
              (world_of ((AirdropManager_init ;;
                          navigate_to_listing "https://airdrop.io")%py
                           Scripted.alpha_fresh)))
  = Ok (Some "AlphaDrop") /\
  completed_airdrops (world_of (main None "https://airdrop.io" Scripted.alpha_fresh)) = ∅ /\
  stored (fs (world_of (main None "https://airdrop.io" Scripted.alpha_fresh))) = ∅ /\
  In (WARNING, "Could not complete all tasks for AlphaDrop")
     (log (world_of (main None "https://airdrop.io" Scripted.alpha_fresh))).
Proof.
  split; [reflexivity|].
  split; [intros P D a u w; apply (preserves_main a u w)|].
  vm_compute. repeat split; try reflexivity.
  repeat (first [left; reflexivity | right]).
Qed.

(** Scenario 3: with the candidates "Beta" and "Gamma" and the request "zeta",
    the selection falls back to "Beta" and records a warning. *)
Lemma select_scenario_3 :
  value_of (select_airdrop (Some "zeta") (Scripted.beta_gamma ∅)) = Ok (Some "Beta") /\
  In (WARNING, "Airdrop 'zeta' not found, selecting first available")
     (log (world_of (select_airdrop (Some "zeta") (Scripted.beta_gamma ∅)))).
Proof. vm_compute. split; [reflexivity|]. do 1 right. left. reflexivity. Qed.

(** Scenario 2, end to end: with "AlphaDrop" already in the file, [main]
    selects nothing and leaves the store as it was. *)
Lemma main_scenario_2 :
  same_store
    (world_of (AirdropManager_init Scripted.alpha_on_disk))
    (world_of (main None "https://airdrop.io" Scripted.alpha_on_disk)) /\
  In (ERROR, "No airdrop was selected or available")
     (log (world_of (main None "https://airdrop.io" Scripted.alpha_on_disk))).
Proof.
  vm_compute. split; [split; reflexivity|]. do 4 right. left. reflexivity.
Qed.

(** ** Further properties of the code *)

(** *** Strings: lower-casing and the substring test *)

Section StringFacts.

Lemma ascii_lower_idempotent (c : ascii) :
  Str.ascii_lower (Str.ascii_lower c) = Str.ascii_lower c.
Proof. destruct c as [[] [] [] [] [] [] [] []]; reflexivity. Qed.

Lemma lower_idempotent (s : string) : Str.lower (Str.lower s) = Str.lower s.
Proof.
  induction s as [|c r IH]; [reflexivity|].
  cbn [Str.lower]. rewrite ascii_lower_idempotent, IH. reflexivity.
Qed.

Lemma startswith_spec (p s : string) :
  Str.startswith p s = true <-> exists post, s = (p ++ post)%string.
Proof.
  revert s. induction p as [|a p IH]; intros s; cbn [Str.startswith].
  - split; [intros _; exists s; reflexivity | reflexivity].
  - destruct s as [|b s].
    + split; [discriminate | intros [post E]; discriminate E].
    + destruct (Ascii.eqb a b) eqn:E.
      * apply Ascii.eqb_eq in E. subst b. rewrite IH.
        split; intros [post Hp]; exists post.
        -- cbn. rewrite Hp. reflexivity.
        -- cbn in Hp. injection Hp as ->. reflexivity.
      * split; [discriminate|]. intros [post Hp]. cbn in Hp.
        injection Hp as -> _. rewrite Ascii.eqb_refl in E. discriminate E.
Qed.

(** [Str.contains sub s] is Python's [sub in s]: [sub] occurs in [s]. *)
Lemma contains_spec (sub s : string) :
  Str.contains sub s = true <-> occurs_in sub s.
Proof.
  unfold occurs_in. induction s as [|c r IH]; cbn [Str.contains].
  - rewrite orb_false_r, startswith_spec. split.
    + intros [post E]. exists "", post. exact E.
    + intros (pre & post & E). destruct pre; [exists post; exact E|discriminate E].
  - rewrite orb_true_iff, startswith_spec, IH. split.
    + intros [[post E] | (pre & post & E)].
      * exists "", post. exact E.
      * exists (String c pre), post. cbn. rewrite E. reflexivity.
    + intros (pre & post & E). destruct pre as [|c' pre].
      * left. exists post. exact E.
      * right. cbn in E. injection E as -> ->. exists pre, post. reflexivity.
Qed.

Lemma contains_false_spec (sub s : string) :
  Str.contains sub s = false <-> ~ occurs_in sub s.
Proof.
  rewrite <- contains_spec. destruct (Str.contains sub s); split; congruence.
Qed.

(** X1: the classifier, case by case, on the lower-cased text: 'visit' exactly
    when both "visit" and "airdrop page" occur in it, 'telegram' exactly when
    "telegram" occurs and those two do not both occur, 'unknown' exactly when
    neither holds; and it ignores the case of ASCII letters: two texts with
    the same lower-casing get the same tag. *)
Theorem get_task_type_cases (task_text : string) :
  let text := Str.lower task_text in
  let visit := occurs_in "visit" text /\ occurs_in "airdrop page" text in
  (get_task_type task_text = "visit" <-> visit) /\
  (get_task_type task_text = "telegram" <-> occurs_in "telegram" text /\ ~ visit) /\
  (get_task_type task_text = "unknown" <-> ~ occurs_in "telegram" text /\ ~ visit) /\
  (forall other, Str.lower other = text -> get_task_type other = get_task_type task_text) /\
  get_task_type text = get_task_type task_text.
Proof.
  cbn zeta.
  assert (Hcase : forall other, Str.lower other = Str.lower task_text ->
                                get_task_type other = get_task_type task_text).
  { intros other E. unfold get_task_type. rewrite E. reflexivity. }
  split; [|split; [|split; [|split; [exact Hcase | apply Hcase, lower_idempotent]]]].
  all: unfold get_task_type; rewrite <- !contains_spec;
    destruct (Str.contains "visit" (Str.lower task_text));
    destruct (Str.contains "airdrop page" (Str.lower task_text));
    destruct (Str.contains "telegram" (Str.lower task_text)); cbn;
    intuition (try discriminate; try congruence).
Qed.

End StringFacts.

Lemma get_task_type_cases_witness :
  get_task_type "JOIN OUR TELEGRAM" = get_task_type "join our telegram".
Proof.
  apply (proj1 (proj2 (proj2 (proj2 (get_task_type_cases "join our telegram"))))).
  vm_compute. reflexivity.
Defined.

(** *** src/airdrop.py: which candidate a selection returns *)

Section SelectionOutcome.

Context {P : Type} `{Driver P}.

Local Open Scope py_scope.

(** The search loop stops at the first candidate whose name matches. *)
Lemma find_requested_first (requested : string) (airdrops : list airdrop) (a : airdrop) :
  find_requested requested airdrops = Some a <->
  exists before after,
    airdrops = before ++ a :: after /\
    Str.contains (Str.lower requested) (Str.lower (name a)) = true /\
    forall b, In b before ->
              Str.contains (Str.lower requested) (Str.lower (name b)) = false.
Proof.
  induction airdrops as [|c rest IH]; cbn [find_requested].
  - split; [discriminate|]. intros (before & after & E & _). destruct before; discriminate E.
  - destruct (Str.contains (Str.lower requested) (Str.lower (name c))) eqn:Hc.
    + split.
      * intros [= <-]. exists [], rest. repeat split; [exact Hc|]. intros b [].
      * intros (before & after & E & Ha & Hb). destruct before as [|b before].
        -- cbn in E. injection E as -> _. reflexivity.
        -- cbn in E. injection E as -> _.
           rewrite (Hb b (or_introl eq_refl)) in Hc. discriminate Hc.
    + rewrite IH. split.
      * intros (before & after & -> & Ha & Hb). exists (c :: before), after.
        repeat split; [exact Ha|]. intros b [<- | Hin]; [exact Hc | apply Hb, Hin].
      * intros (before & after & E & Ha & Hb). destruct before as [|b before].
        -- cbn in E. injection E as <- _. rewrite Ha in Hc. discriminate Hc.
        -- cbn in E. injection E as <- ->. exists before, after.
           repeat split; [exact Ha|]. intros b' Hin. apply Hb. right. exact Hin.
Qed.

Lemma find_requested_in (requested : string) (airdrops : list airdrop) (a : airdrop) :
  find_requested requested airdrops = Some a -> In a airdrops.
Proof.
  intros E. apply find_requested_first in E as (before & after & -> & _).
  apply in_or_app. right. left. reflexivity.
Qed.

Lemma chosen_in (airdrops : list airdrop) airdrop_name (a : airdrop) :
  chosen airdrops airdrop_name = Some a -> In a airdrops.
Proof.
  destruct airdrops as [|first rest]; [discriminate|].
  unfold chosen. intros E. apply (inj Some) in E.
  destruct (Str.opt_truthy airdrop_name); [|left; exact E].
  destruct (find_requested (default "" airdrop_name) (first :: rest)) as [b|] eqn:F.
  - change (default first (Some b)) with b in E. subst b.
    eapply find_requested_in. exact F.
  - left. exact E.
Qed.

(** With a match, nothing is logged before the completion check. *)
Lemma select_among_found (requested : string) (airdrops : list airdrop) (a : airdrop)
    (w : world P) :
  chosen airdrops (Some requested) = Some a ->
  (Str.opt_truthy (Some requested) = true ->
   find_requested requested airdrops = Some a) ->
  select_among airdrops (Some requested) w =
    (if bool_decide (is_Some (completed_airdrops w !! name a)) then
       logger INFO ("Airdrop '" +:+ name a +:+ "' already completed, skipping") ;;
       ret None
     else
       clicked <- click (element a) ;;
       if clicked : bool then
         logger INFO ("Selected airdrop: " +:+ name a) ;;
         random_wait "medium" ;;
         ret (Some (name a))
       else
         logger ERROR ("Error clicking on airdrop: " +:+ name a) ;;
         ret None) w.
Proof.
  intros Hch Hfound. destruct airdrops as [|first rest]; [discriminate|].
  unfold chosen in Hch. apply (inj Some) in Hch. unfold select_among.
  destruct (Str.opt_truthy (Some requested)).
  - change (default "" (Some requested)) with requested in *.
    rewrite (Hfound eq_refl). reflexivity.
  - subst a. reflexivity.
Qed.

(** X2: first match wins.  When the listing is [before ++ a :: after], the
    lower-cased request occurs in the lower-cased name of [a] and in the name
    of no candidate listed before it, [select_airdrop] resolves to [a],
    whatever follows it in the list; it returns the name of [a] when that name
    is not in the Completion Store and the click on its card succeeds, and
    [None] otherwise. *)
Theorem select_airdrop_first_match (requested : string) (w w1 : world P)
    (before after : list airdrop) (a : airdrop) :
  get_available_airdrops w = (Ok (before ++ a :: after), w1) ->
  occurs_in (Str.lower requested) (Str.lower (name a)) ->
  (forall b, In b before ->
             ~ occurs_in (Str.lower requested) (Str.lower (name b))) ->
  chosen (before ++ a :: after) (Some requested) = Some a /\
  value_of (select_airdrop (Some requested) w) =
    Ok (if bool_decide (is_Some (completed_airdrops w !! name a)) then None
        else if or_false (value_of (click (element a) w1)) then Some (name a)
             else None).
Proof.
  intros Hget Ha Hbefore.
  assert (Hfind : find_requested requested (before ++ a :: after) = Some a).
  { apply find_requested_first. exists before, after.
    repeat split; [apply contains_spec, Ha|].
    intros b Hb. apply contains_false_spec, Hbefore, Hb. }
  assert (Hch : chosen (before ++ a :: after) (Some requested) = Some a).
  { destruct before as [|first rest].
    - cbn [app]. unfold chosen. destruct (Str.opt_truthy (Some requested)); [|reflexivity].
      change (default "" (Some requested)) with requested.
      cbn [app] in Hfind. rewrite Hfind. reflexivity.
    - destruct requested as [|c r].
      + exfalso. apply (Hbefore first (or_introl eq_refl)).
        apply contains_spec. cbn [Str.lower]. apply contains_empty.
      + cbn [app] in *. unfold chosen. cbn [Str.opt_truthy Str.truthy].
        change (default "" (Some (String c r))) with (String c r).
        rewrite Hfind. reflexivity. }
  split; [exact Hch|].
  pose proof (preserves_get_available_airdrops same_store w) as [Hs _].
  rewrite Hget in Hs. cbn in Hs.
  unfold select_airdrop, bind. rewrite Hget.
  rewrite (select_among_found requested _ a w1 Hch (fun _ => Hfind)).
  rewrite Hs.
  destruct (bool_decide (is_Some (completed_airdrops w !! name a))); [reflexivity|].
  unfold bind. destruct (click_ok (element a) w1) as (b & w3 & ->). cbn.
  destruct b; reflexivity.
Qed.

(** X3: what a selection can return.  Once the listing has been scraped,
    [select_airdrop] does not raise, and a name it returns is the name of a
    listed candidate, the one the request resolves to, and is not in the
    Completion Store; from an empty listing it returns [None]; and an empty
    request string is treated exactly like no request. *)
Theorem select_airdrop_returns_listed (airdrop_name : option string) (w w1 : world P)
    (airdrops : list airdrop) :
  get_available_airdrops w = (Ok airdrops, w1) ->
  (exists r w',
      select_airdrop airdrop_name w = (Ok r, w') /\
      (airdrops = [] -> r = None) /\
      forall n, r = Some n ->
                exists a, chosen airdrops airdrop_name = Some a /\ In a airdrops /\
                          name a = n /\ completed_airdrops w !! n = None) /\
  select_airdrop (Some "") w = select_airdrop None w.
Proof.
  intros Hget. split.
  - pose proof (preserves_get_available_airdrops same_store w) as [Hs _].
    rewrite Hget in Hs. cbn in Hs.
    unfold select_airdrop, bind. rewrite Hget.
    destruct airdrops as [|first rest].
    + do 2 eexists. split; [reflexivity|]. split; [reflexivity|]. discriminate.
    + destruct (chosen (first :: rest) airdrop_name) as [a|] eqn:Hch; [|discriminate Hch].
      destruct (select_among_resolved first rest airdrop_name a w1 Hch)
        as (w2 & [Hs2 _] & ->).
      destruct (bool_decide (is_Some (completed_airdrops w2 !! name a))) eqn:Hd.
      * do 2 eexists. split; [reflexivity|]. split; discriminate.
      * apply bool_decide_eq_false in Hd.
        unfold bind. destruct (click_ok (element a) w2) as (b & w3 & ->).
        destruct b; cbn.
        -- do 2 eexists. split; [reflexivity|]. split; [discriminate|].
           intros n [= <-]. exists a. split; [reflexivity|].
           split; [exact (chosen_in _ _ _ Hch)|]. split; [reflexivity|].
           rewrite <- Hs, <- Hs2. apply eq_None_not_Some. exact Hd.
        -- do 2 eexists. split; [reflexivity|]. split; discriminate.
  - unfold select_airdrop, bind. destruct (get_available_airdrops w) as [[l|e] w'];
      [|reflexivity].
    destruct l; reflexivity.
Qed.

End SelectionOutcome.

Lemma select_airdrop_first_match_witness :
  chosen ([Scripted.beta] ++ Scripted.gamma :: []) (Some "GAM") = Some Scripted.gamma /\
  value_of (select_airdrop (Some "GAM") (Scripted.beta_gamma ∅)) =
    Ok (if bool_decide (is_Some (completed_airdrops (Scripted.beta_gamma ∅)
                                   !! name Scripted.gamma))
        then None
        else if or_false
                  (value_of (click (element Scripted.gamma)
                               (world_of (get_available_airdrops
                                            (Scripted.beta_gamma ∅)))))
             then Some (name Scripted.gamma)
             else None).
Proof.
  apply (select_airdrop_first_match "GAM" (Scripted.beta_gamma ∅)
           (world_of (get_available_airdrops (Scripted.beta_gamma ∅)))
           [Scripted.beta] [] Scripted.gamma).
  - vm_compute. reflexivity.
  - apply contains_spec. vm_compute. reflexivity.
  - intros b [<- | []]. apply contains_false_spec. vm_compute. reflexivity.
Defined.

Lemma select_airdrop_returns_listed_witness :
  (exists r w',
      select_airdrop (Some "beta") (Scripted.beta_gamma ∅) = (Ok r, w') /\
      ([Scripted.beta; Scripted.gamma] = [] -> r = None) /\
      forall n, r = Some n ->
                exists a, chosen [Scripted.beta; Scripted.gamma] (Some "beta") = Some a /\
                          In a [Scripted.beta; Scripted.gamma] /\
                          name a = n /\
                          completed_airdrops (Scripted.beta_gamma ∅) !! n = None) /\
  select_airdrop (Some "") (Scripted.beta_gamma ∅)
  = select_airdrop None (Scripted.beta_gamma ∅).
Proof.
  apply (select_airdrop_returns_listed (Some "beta") (Scripted.beta_gamma ∅)
           (world_of (get_available_airdrops (Scripted.beta_gamma ∅)))).
  vm_compute. reflexivity.
Defined.

(** *** src/browser.py: the wrappers around the driver *)

Section Wrappers.

Context {P : Type} `{Driver P}.

Local Open Scope py_scope.

(** X4: [click] never raises.  It answers [True] exactly when
    [element.click()] did not raise, and then logs nothing; when the click
    raised [x] it answers [False] and its only trace is one ERROR entry
    carrying [str(x)]. *)
Theorem click_outcome (e : elem) (w : world P) :
  exists b w',
    click e w = (Ok b, w') /\
    (b = true <->
     exists ws p, element_click e (focus w) (windows w) (ext w) = (Ok tt, ws, p)) /\
    (b = true -> log w' = log w) /\
    (b = false ->
     exists x ws p,
       element_click e (focus w) (windows w) (ext w) = (Raise x, ws, p) /\
       w' = add_log (ERROR, "Error clicking element: " +:+ exn_str x)
              (set_windows ws (set_ext p w))).
Proof.
  unfold click, click_element. unfold_monad.
  destruct (element_click e (focus w) (windows w) (ext w)) as [[[[]|x] ws] p] eqn:E; cbn.
  - do 2 eexists. split; [reflexivity|]. split; [|split].
    + split; [intros _; eauto | reflexivity].
    + intros _. reflexivity.
    + discriminate.
  - do 2 eexists. split; [reflexivity|]. split; [|split].
    + split; [discriminate | intros (ws' & p' & [=])].
    + discriminate.
    + intros _. exists x, ws, p. split; reflexivity.
Qed.

(** X5: [wait_for_element] never raises.  It answers [None] exactly when the
    wait on the condition raised (a timeout, for one); the timeout it passes
    to the driver is never 0, because [timeout or BROWSER_TIMEOUT] replaces a
    timeout of 0, like a missing one, by the default of 30 seconds. *)
Theorem wait_for_element_outcome {A} (condition : Z -> string -> pageop P A)
    (value : string) (timeout : option Z) (w : world P) :
  let t := Str.int_or_else timeout Settings.BROWSER_TIMEOUT in
  (exists r w',
      wait_for_element condition value timeout w = (Ok r, w') /\
      (r = None <-> exists e p, condition t value (focus w) (ext w) = (Raise e, p))) /\
  t <> 0%Z /\
  wait_for_element condition value (Some 0%Z) w = wait_for_element condition value None w.
Proof.
  cbn zeta. split; [|split].
  - unfold wait_for_element. unfold_monad.
    destruct (condition _ value (focus w) (ext w)) as [[a|e] p]; cbn.
    + do 2 eexists. split; [reflexivity|].
      split; [discriminate | intros (e & p' & [=])].
    + do 2 eexists. split; [reflexivity|]. split; [eauto | reflexivity].
  - unfold Str.int_or_else, Settings.BROWSER_TIMEOUT.
    destruct timeout as [n|]; [|discriminate].
    destruct (Z.eqb n 0) eqn:E; [discriminate|]. apply Z.eqb_neq. exact E.
  - reflexivity.
Qed.

(** X6: every pause is drawn from an interval that lies between half a second
    and seven seconds and is not empty; a wait type that is not a key of
    [WAIT_TIMES] falls back to the interval from 1 to 3 seconds. *)
Theorem random_wait_interval (wait_type : string) :
  exists lo hi : Q,
    random_wait (P := P) wait_type = external_ (sleep_uniform lo hi) /\
    (1 # 2 <= lo)%Q /\ (lo <= hi)%Q /\ (hi <= 7 # 1)%Q /\
    (Settings.WAIT_TIMES wait_type = None -> lo = (1 # 1)%Q /\ hi = (3 # 1)%Q).
Proof.
  unfold random_wait, Settings.WAIT_TIMES.
  repeat match goal with
         | |- context [String.eqb wait_type ?k] => destruct (String.eqb wait_type k)
         end;
    cbn; do 2 eexists; (split; [reflexivity|]);
    (repeat split; try discriminate; try reflexivity; unfold Qle; cbn; lia).
Qed.

(** X7: [navigate_to_listing] fails exactly when [driver.get] fails, and with
    the same exception; otherwise it returns normally whether or not the "All
    airdrops" tab is found and whether or not the click on it works. *)
Theorem navigate_to_listing_outcome (url : string) (w : world P) :
  value_of (navigate_to_listing url w) =
    match fst (driver_get url (focus w) (ext w)) with
    | Ok _ => Ok tt
    | Raise e => Raise e
    end.
Proof.
  unfold navigate_to_listing, get. unfold bind at 1. unfold bind at 1.
  unfold logger at 1. unfold bind at 1. unfold page at 1. cbn [focus ext add_log].
  destruct (driver_get url (focus w) (ext w)) as [[[]|e] p]; cbn [fst]; [|reflexivity].
  destruct (random_wait_ok "page_load" (set_ext p (add_log (INFO, "Navigating to: " +:+ url) w)))
    as [w1 ->].
  unfold bind.
  destruct (wait_for_element_ok until_presence_of_element_located
              Settings.all_airdrops_tab None w1) as ([tab|] & w2 & ->); [|reflexivity].
  destruct (click_ok tab w2) as (b & w3 & ->). reflexivity.
Qed.

(** The [with] block: the body's outcome passes through, and every window is
    closed on the way out. *)
Lemma with_browser_run {A} (body : M P A) (w : world P) :
  value_of (with_browser body w) = value_of (body w) /\
  windows (world_of (with_browser body w)) = [].
Proof.
  unfold with_browser. destruct (body w) as [r w']. split; reflexivity.
Qed.

(** X8: [main] never raises, and on every path out of it, the normal one and
    the one through [except Exception], the browser has been quit: no window
    is left open. *)
Theorem main_quits_browser (args_airdrop : option string) (args_url : string)
    (w : world P) :
  value_of (main args_airdrop args_url w) = Ok tt /\
  windows (world_of (main args_airdrop args_url w)) = [].
Proof.
  unfold main, try_except.
  match goal with
  | |- context [with_browser ?body w] =>
      pose proof (with_browser_run body w) as [Hv Hw];
      destruct (with_browser body w) as [[[]|e] w']
  end; cbn in *; split; auto.
Qed.

(** X9: when the completion file cannot be loaded, the run ends before the
    listing is opened: [main] only quits the browser and logs the error; the
    page, the disk and the manager's mapping are as they were. *)
Theorem main_stops_when_store_unreadable (args_airdrop : option string)
    (args_url : string) (w : world P) (e : exn) :
  value_of (_load_completed_airdrops w) = Raise e ->
  main args_airdrop args_url w =
    (Ok tt,
     add_log (ERROR, "Unexpected error: " +:+ exn_str e)
       (add_log (INFO, "Browser closed") (set_windows [] w))).
Proof.
  intros Hload.
  assert (Hrun : _load_completed_airdrops w = (Raise e, w)).
  { revert Hload. unfold _load_completed_airdrops, os_path_exists_file, open_json_load.
    unfold_monad. destruct (bool_decide _); cbn; [|discriminate].
    destruct (read_fault (fs w)) as [[]|]; cbn;
      try discriminate; try (intros [= ->]; reflexivity).
    destruct (completed_file (fs w)) as [[|m]|]; cbn; discriminate. }
  unfold main, with_browser, AirdropManager_init, try_except.
  unfold bind at 3. unfold bind at 2. unfold bind at 1. rewrite Hrun. reflexivity.
Qed.

End Wrappers.

Lemma main_stops_when_store_unreadable_witness :
  main None "https://airdrop.io" Scripted.unreadable =
    (Ok tt,
     add_log (ERROR, "Unexpected error: Permission denied")
       (add_log (INFO, "Browser closed") (set_windows [] Scripted.unreadable))).
Proof.
  apply (main_stops_when_store_unreadable None "https://airdrop.io" Scripted.unreadable
           (OtherException "Permission denied")).
  vm_compute. reflexivity.
Defined.

(** *** src/tasks: what crosses a task boundary *)

Section TaskBoundary.

Context {P : Type} `{Driver P}.

Local Open Scope py_scope.

(** X10: [expand_task] never raises, and its answer depends on the lookup of
    the expand button alone: [True] when the button is found, whether or not
    the click on it works, [True] when there is no such button, and [False]
    exactly when the lookup raised something other than
    NoSuchElementException. *)
Theorem expand_task_outcome (task_element : elem) (w : world P) :
  exists w',
    expand_task task_element w =
      (Ok match fst (element_find_element task_element
                       ".//button[contains(@class, 'expand') or contains(@class, 'dropdown')]"
                       (focus w) (ext w)) with
          | Ok _ => true
          | Raise (NoSuchElementException _) => true
          | Raise _ => false
          end,
       w').
Proof.
  unfold expand_task, find_element, page. unfold_monad.
  destruct (element_find_element _ _ _ _) as [[b|[]] p]; cbn [fst]; try (eexists; reflexivity).
  destruct (click_ok b (set_ext p w)) as (c & w1 & ->). eexists. reflexivity.
Qed.

(** X11: [check_task_completion] does raise: it lets out exactly the
    exceptions of the marker lookup that are not NoSuchElementException (a
    stale element, say), unchanged; every fault of the confirm-button path is
    turned into [False]. *)
Theorem check_task_completion_raises (task_element : elem) (w : world P) (e : exn) :
  value_of (check_task_completion task_element w) = Raise e <->
  fst (element_find_element task_element Settings.task_completed (focus w) (ext w))
    = Raise e /\
  (forall msg, e <> NoSuchElementException msg).
Proof.
  unfold check_task_completion, find_element, page. unfold_monad.
  destruct (element_find_element task_element Settings.task_completed (focus w) (ext w))
    as [[m|x] p]; cbn [fst].
  - cbn. split; [discriminate | intros [[=] _]].
  - destruct x as [msg|msg|msg|msg]; cbn.
    + destruct (element_find_element task_element confirm_xpath _ _) as [[c|y] p'].
      * match goal with
        | |- context [click c ?w0] => destruct (click_ok c w0) as (b & w1 & ->)
        end.
        cbn. split; [discriminate|]. intros [[= <-] Hne]. exfalso. eapply Hne. reflexivity.
      * destruct y; cbn; (split; [discriminate|]); intros [[= <-] Hne];
          exfalso; eapply Hne; reflexivity.
    + split; [intros [= <-]; split; [reflexivity | discriminate]
             | intros [[= <-] _]; reflexivity].
    + split; [intros [= <-]; split; [reflexivity | discriminate]
             | intros [[= <-] _]; reflexivity].
    + split; [intros [= <-]; split; [reflexivity | discriminate]
             | intros [[= <-] _]; reflexivity].
Qed.

(** [expand_task] never raises. *)
Lemma expand_task_ok (task_element : elem) (w : world P) :
  exists b w', expand_task task_element w = (Ok b, w').
Proof.
  unfold expand_task, find_element, page. unfold_monad.
  destruct (element_find_element _ _ _ _) as [[b|[]] p]; cbn; eauto.
  destruct (click_ok b (set_ext p w)) as (c & w1 & ->). eauto.
Qed.

(** X12: no exception crosses a task boundary: [BaseTask.complete_task] and
    [TelegramTask.complete_task] never raise, whatever the driver, the page
    and the text-generation service do, although the verification step they
    end with can raise. *)
Theorem complete_task_never_raises (task_element : elem) (w : world P) :
  (exists b w', BaseTask_complete_task task_element w = (Ok b, w')) /\
  (exists b w', TelegramTask_complete_task task_element w = (Ok b, w')).
Proof.
  split.
  - unfold BaseTask_complete_task. unfold bind at 1.
    destruct (expand_task_ok task_element w) as (b & w1 & ->).
    destruct b; cbn [negb]; [|cbn; eauto].
    unfold try_except.
    match goal with |- context [bind ?m ?k w1] => destruct (bind m k w1) as [[v|e] w2] end;
      cbn; eauto.
  - unfold TelegramTask_complete_task. unfold bind at 1.
    destruct (expand_task_ok task_element w) as (b & w1 & ->).
    destruct b; cbn [negb]; [|cbn; eauto].
    unfold try_except.
    match goal with |- context [bind ?m ?k w1] => destruct (bind m k w1) as [[v|e] w2] end;
      cbn; eauto.
Qed.

End TaskBoundary.

(** *** src/browser.py: a window command that fails *)

Section WindowFaults.

Context {P : Type} `{Driver P}.

Local Open Scope py_scope.

(** X19: a fault of [driver.close()] leaks the tab.  When a new-tab action
    has switched to a tab, its callback has run there leaving the windows
    alone (returning or raising, it makes no difference), and the driver then
    refuses to close the tab, the exception of [close] leaves
    [new_tab_action]: the callback's result is lost, the focus stays on the
    secondary tab, and that tab stays open. *)
Theorem new_tab_action_close_fault {A} (action_callback : M P A) (w : world P)
    (h : handle) (e : exn) :
  preserves same_windows action_callback ->
  In (focus w) (windows w) ->
  first_other (focus w) (windows w) = Some h ->
  value_of (switch_to_window h w) = Ok tt ->
  value_of (driver_close
              (world_of (in_new_tab action_callback (world_of (switch_to_window h w)))))
  = Raise e ->
  let w' := world_of (new_tab_action action_callback w) in
  value_of (new_tab_action action_callback w) = Raise e /\
  focus w' = h /\ In h (windows w') /\ h <> focus w.
Proof.
  intros Hcb Hfocus E Hswitch Hclose. cbn zeta.
  pose proof (first_other_some _ _ _ E) as [Hin Hne].
  destruct (switch_to_window h w) as [[[]|x] w1] eqn:E1; [|discriminate].
  destruct (switch_to_window_ok h w w1 E1) as [_ (p1 & ->)].
  change (world_of (Ok tt, set_focus h (set_ext p1 w)))
    with (set_focus h (set_ext p1 w)) in Hclose.
  destruct (guarded_callback_ok action_callback (set_focus h (set_ext p1 w)))
    as (res & w2 & E2 & Hw & Hf).
  pose proof (Hcb (set_focus h (set_ext p1 w))) as [Hw' Hf'].
  rewrite Hw' in Hw. rewrite Hf' in Hf. cbn in Hw, Hf.
  unfold in_new_tab in Hclose. rewrite E2 in Hclose.
  change (world_of (Ok res, w2)) with w2 in Hclose.
  assert (Hrun : exists p, new_tab_action action_callback w = (Raise e, set_ext p w2)).
  { rewrite (new_tab_action_steps action_callback w h E).
    unfold bind at 1. rewrite E1. unfold bind at 1. rewrite E2.
    unfold window_handles at 1. unfold bind at 1. unfold bind at 1.
    rewrite Hw, (two_handles h (focus w) (windows w) Hin Hfocus Hne).
    revert Hclose. unfold driver_close. rewrite Hf, Hw.
    rewrite (proj2 (open_handle h (windows w)) Hin).
    destruct (driver_close_window h (windows w) (ext w2)) as [[[]|x] p]; [discriminate|].
    intros [= <-]. exists p. reflexivity. }
  destruct Hrun as (p & ->). cbn. rewrite Hw, Hf. auto.
Qed.

End WindowFaults.

Lemma new_tab_action_close_fault_witness :
  value_of (new_tab_action human_like_browsing Scripted.stuck_tab)
  = Raise (OtherException "unexpected alert open") /\
  focus (world_of (new_tab_action human_like_browsing Scripted.stuck_tab)) = Handle 1 /\
  In (Handle 1) (windows (world_of (new_tab_action human_like_browsing Scripted.stuck_tab))) /\
  Handle 1 <> focus Scripted.stuck_tab.
Proof.
  apply (new_tab_action_close_fault human_like_browsing Scripted.stuck_tab (Handle 1)
           (OtherException "unexpected alert open")).
  - apply (preserves_human_like_browsing same_windows).
  - vm_compute. left. reflexivity.
  - vm_compute. reflexivity.
  - vm_compute. reflexivity.
  - vm_compute. reflexivity.
Defined.

(** *** src/airdrop.py: scraping the listing *)

Section Listing.

Context {P : Type} `{Driver P}.

Local Open Scope py_scope.

(** The loop over the cards only appends, keeps the order of the cards, and
    skips a card rather than raise NoSuchElementException. *)
Lemma parse_airdrop_elements_run (cards : list elem) (acc : list airdrop) (w : world P) :
  match parse_airdrop_elements cards acc w with
  | (Ok airdrops, _) =>
      exists found, airdrops = acc ++ found /\
                    List.map element found `sublist_of` cards
  | (Raise e, _) => is_no_such_element e = false
  end.
Proof.
  revert acc w. induction cards as [|card rest IH]; intros acc w;
    cbn [parse_airdrop_elements].
  - cbn. exists []. split; [rewrite app_nil_r; reflexivity | constructor].
  - unfold bind at 1.
    match goal with
    | |- context [try_except ?m ?h w] =>
        assert (Hstep :
          match try_except m h w with
          | (Ok airdrops, _) =>
              airdrops = acc \/
              exists a, airdrops = acc ++ [a] /\ element a = card
          | (Raise e, _) => is_no_such_element e = false
          end)
    end.
    { unfold try_except.
      match goal with |- context [bind ?m ?k w] => destruct (bind m k w) as [[v|e] w1] eqn:E end.
      - right. revert E. unfold bind, find_element, text_of, page, ret.
        repeat match goal with
               | |- context [let '(_, _) := ?x in _] => destruct x as [[?|?] ?]
               | |- context [match optional_text ?c ?x ?w0 with _ => _ end] =>
                   destruct (optional_text c x w0) as [[?|?] ?]
               end; try discriminate.
        intros E'. injection E' as <- _. eexists. split; reflexivity.
      - destruct e; cbn; try reflexivity. left. reflexivity. }
    destruct (try_except _ _ w) as [[airdrops|e] w1]; [|exact Hstep].
    specialize (IH airdrops w1).
    destruct (parse_airdrop_elements rest airdrops w1) as [[res|e] w2]; [|exact IH].
    destruct IH as (found & -> & Hsub).
    destruct Hstep as [-> | (a & -> & Ha)].
    + exists found. split; [reflexivity|]. apply sublist_cons_r. left. exact Hsub.
    + exists (a :: found). split; [rewrite <- app_assoc; reflexivity|].
      cbn [List.map]. rewrite Ha. constructor. exact Hsub.
Qed.

(** On a steady page an optional field is always read. *)
Lemma optional_text_steady steady named all card xpath (w : world P) :
  steady_listing steady named all ->
  steady (ext w) ->
  exists t w', optional_text card xpath w = (Ok t, w') /\
               steady (ext w') /\ focus w' = focus w.
Proof.
  intros (Hfind & Htext & _) Hs.
  unfold optional_text, find_element, text_of. unfold_monad.
  destruct (Hfind card xpath (focus w) (ext w) Hs) as [Hs1 Hraise].
  destruct (element_find_element card xpath (focus w) (ext w)) as [[e|x] p1]; cbn in *.
  - destruct (Htext e (focus w) p1 Hs1) as [Hs2 [t Ht]].
    destruct (element_text e (focus w) p1) as [[t'|x] p2]; cbn in *; [|discriminate].
    eauto.
  - specialize (Hraise x eq_refl). destruct x; try discriminate. cbn. eauto.
Qed.

(** On a steady page the loop over the cards returns, and lists exactly the
    cards that have a name, each with its name, in the order of the cards. *)
Lemma parse_airdrop_elements_steady steady named all (cards : list elem)
    (acc : list airdrop) (w : world P) :
  steady_listing steady named all ->
  (forall card, In card cards -> In card all) ->
  steady (ext w) ->
  exists airdrops w',
    parse_airdrop_elements cards acc w = (Ok airdrops, w') /\
    List.map (fun a => (element a, name a)) airdrops
    = List.map (fun a => (element a, name a)) acc
      ++ omap (fun card => pair card <$> named card) cards.
Proof.
  intros Hpage. revert acc w.
  induction cards as [|card rest IH]; intros acc w Hall Hs; cbn [parse_airdrop_elements].
  - do 2 eexists. split; [reflexivity|]. cbn. rewrite app_nil_r. reflexivity.
  - assert (Hrest : forall c, In c rest -> In c all) by (intros c Hc; apply Hall; right; exact Hc).
    destruct Hpage as (Hfind & Htext & Hname).
    pose proof (Hname card (focus w) (ext w) Hs (Hall card (or_introl eq_refl))) as Hcard.
    destruct (Hfind card name_xpath (focus w) (ext w) Hs) as [Hs1 _].
    unfold bind at 1. unfold try_except at 1. unfold bind at 1.
    unfold find_element at 1, page at 1. fold name_xpath.
    cbn [omap list_omap].
    destruct (named card) as [n|] eqn:En.
    + destruct Hcard as (name_element & p1 & Efind & Etext).
      rewrite Efind in Hs1 |- *. cbn in Hs1.
      destruct (Htext name_element (focus w) p1 Hs1) as [Hs2 _].
      unfold bind at 1. unfold text_of at 1, page at 1. cbn [focus set_ext ext].
      destruct (element_text name_element (focus w) p1) as [r p2]. cbn in Etext, Hs2.
      subst r.
      unfold bind at 1.
      destruct (optional_text_steady steady named all card
                  ".//div[contains(@class, 'time-left')]" (set_ext p2 (set_ext p1 w))
                  (conj Hfind (conj Htext Hname)) Hs2) as (t1 & w1 & -> & Hs3 & _).
      unfold bind at 1.
      destruct (optional_text_steady steady named all card
                  ".//div[contains(@class, 'reward')]" w1
                  (conj Hfind (conj Htext Hname)) Hs3) as (t2 & w2 & -> & Hs4 & _).
      unfold ret at 1.
      destruct (IH (acc ++ [{| name := n; time_left := t1; reward := t2; element := card |}])
                  w2 Hrest Hs4) as (airdrops & w' & -> & Hmap).
      do 2 eexists. split; [reflexivity|].
      rewrite Hmap, map_app, <- app_assoc. reflexivity.
    + destruct Hcard as (msg & Efind).
      destruct (element_find_element card name_xpath (focus w) (ext w)) as [r p1].
      cbn in Efind, Hs1. subst r.
      unfold logger at 1, bind at 1, ret at 1.
      match goal with
      | |- context [parse_airdrop_elements rest acc ?w0] =>
          destruct (IH acc w0 Hrest Hs1) as (airdrops & w' & -> & Hmap)
      end.
      do 2 eexists. split; [reflexivity|]. exact Hmap.
Qed.

(** X13: the candidates are the located cards that have a name, in the order
    of the page.  In every case the elements of the returned entries form a
    subsequence of the located cards (no card is listed more often than it was
    located, or out of order), the answer is the empty list when no card is
    located, and the call never raises NoSuchElementException.  And on a page
    that holds still while it is scraped the call returns, and lists exactly
    the located cards that have a name element, each with the text of that
    element as its name: a card without a name is skipped, every other card is
    listed. *)
Theorem get_available_airdrops_listing (w : world P) :
  match until_presence_of_all_elements_located Settings.BROWSER_TIMEOUT
          Settings.airdrop_cards (focus w) (ext w),
        get_available_airdrops w with
  | (Ok cards, _), (Ok airdrops, _) =>
      List.map element airdrops `sublist_of` cards /\
      length airdrops <= length cards
  | (Raise _, _), (r, _) => r = Ok []
  | _, (Raise e, _) => is_no_such_element e = false
  end /\
  forall (steady : P -> Prop) (named : elem -> option string) (cards : list elem) (p : P),
    until_presence_of_all_elements_located Settings.BROWSER_TIMEOUT
      Settings.airdrop_cards (focus w) (ext w) = (Ok cards, p) ->
    steady p ->
    steady_listing steady named cards ->
    exists airdrops w',
      get_available_airdrops w = (Ok airdrops, w') /\
      List.map (fun a => (element a, name a)) airdrops
      = omap (fun card => pair card <$> named card) cards.
Proof.
  split.
  - destruct (until_presence_of_all_elements_located Settings.BROWSER_TIMEOUT
                Settings.airdrop_cards (focus w) (ext w)) as [[cards|x] p] eqn:E;
      unfold get_available_airdrops, wait_for_elements, wait_for_element, page;
      unfold_monad; cbn [Str.int_or_else]; rewrite E; cbn -[parse_airdrop_elements];
      [|reflexivity].
    destruct cards as [|card rest]; [cbn; split; [constructor | lia]|].
    pose proof (parse_airdrop_elements_run (card :: rest) [] (set_ext p w)) as Hrun.
    destruct (parse_airdrop_elements (card :: rest) [] (set_ext p w)) as [[res|e] w1];
      [|exact Hrun].
    destruct Hrun as (found & -> & Hsub). cbn [app].
    split; [exact Hsub|].
    apply sublist_length in Hsub. rewrite length_map in Hsub. exact Hsub.
  - intros steady named cards p E Hs Hpage.
    unfold get_available_airdrops, wait_for_elements, wait_for_element, page.
    unfold_monad. cbn [Str.int_or_else]. rewrite E. cbn -[parse_airdrop_elements].
    destruct cards as [|card rest]; [cbn; eauto|].
    destruct (parse_airdrop_elements_steady steady named (card :: rest) (card :: rest) []
                (set_ext p w) Hpage (fun c Hc => Hc) Hs)
      as (airdrops & w' & -> & Hmap).
    do 2 eexists. split; [reflexivity|]. exact Hmap.
Qed.

End Listing.

Lemma get_available_airdrops_listing_witness :
  exists airdrops w',
    get_available_airdrops (Scripted.beta_gamma ∅) = (Ok airdrops, w') /\
    List.map (fun a => (element a, name a)) airdrops
    = [(Elem 1, "Beta"); (Elem 2, "Gamma")].
Proof.
  apply (proj2 (get_available_airdrops_listing (Scripted.beta_gamma ∅))
           (fun p => Scripted.cards p = [(1, "Beta"); (2, "Gamma")])
           (fun card => match card with
                        | Elem 1 => Some "Beta"
                        | Elem 2 => Some "Gamma"
                        | _ => None
                        end)
           [Elem 1; Elem 2]
           (Scripted.looked_up Settings.airdrop_cards
              (Scripted.listing [(1, "Beta"); (2, "Gamma")]))).
  - vm_compute. reflexivity.
  - reflexivity.
  - split; [|split].
    + intros [id] xpath h p Hs. cbn. unfold Scripted.s_find_element.
      repeat match goal with
             | |- context [if String.eqb ?a ?b then _ else _] => destruct (String.eqb a b)
             end;
        (split; [exact Hs|]); cbn;
        repeat match goal with
               | |- context [if ?b then _ else _] => destruct b
               | |- context [match ?o with Some _ => _ | None => _ end] => destruct o
               end;
        intros x; try discriminate; intros [= <-]; reflexivity.
    + intros [id] h p Hs. cbn. split; [exact Hs|]. eexists. reflexivity.
    + intros card h p Hs [<- | [<- | []]]; cbn;
        unfold Scripted.s_find_element, Scripted.card_name; cbn; rewrite Hs; cbn;
        do 2 eexists; (split; [reflexivity|]); cbn;
        unfold Scripted.card_name; cbn; rewrite Hs; reflexivity.
Defined.

(** *** src/utils/helpers.py and src/airdrop.py: writing and reading the store *)

Section Persistence.

Context {P : Type} `{Driver P}.

Local Open Scope py_scope.

(** What the file holds after a write of [data] was attempted, by the fault
    the write met. *)
Lemma save_json_outcome data file_path (w : world P) :
  exists w',
    save_json data file_path w = (Ok (bool_decide (write_fault (fs w) = None)), w') /\
    read_fault (fs w') = read_fault (fs w) /\
    completed_file (fs w') =
      match write_fault (fs w) with
      | None => Some (JsonObject data)
      | Some (OpenFails _) => completed_file (fs w)
      | Some (DumpFails _ remains) => Some remains
      end.
Proof.
  unfold save_json, create_dir_if_not_exists, os_path_exists_dir, os_makedirs,
    open_json_dump. unfold_monad.
  destruct (write_fault (fs w)) as [[e|e remains]|] eqn:Hw;
    destruct (data_dir_exists (fs w)) eqn:Hd; cbn; rewrite ?Hw, ?Hd; cbn; rewrite ?Hw;
    eexists; (split; [reflexivity|]); cbn; rewrite ?Hw; auto.
Qed.

(** X14: [save_json] and [load_json] round-trip, and what a failed save
    leaves.  [save_json] never raises and answers [True] exactly when no step
    of the write faults (it creates the data directory first when it is
    missing); a [load_json] of a readable file then gives back exactly the
    data saved, whatever the file held before and whatever default is passed.
    When [open] itself faults the file is as it was.  When the fault comes
    after [open], which has truncated the file, the answer is [False] all the
    same but the old content is gone: the file holds what the failed write
    left, and if that does not parse a later [load_json] answers its default,
    the empty mapping when none is passed. *)
Theorem save_json_load_json (data : gmap string completion_record)
    (file_path : string) (default : option (gmap string completion_record))
    (w : world P) :
  let w' := world_of (save_json data file_path w) in
  value_of (save_json data file_path w) = Ok (bool_decide (write_fault (fs w) = None)) /\
  (write_fault (fs w) = None -> read_fault (fs w) = None ->
   value_of (load_json file_path default w') = Ok data) /\
  (forall e, write_fault (fs w) = Some (OpenFails e) ->
             completed_file (fs w') = completed_file (fs w)) /\
  (forall e remains,
      write_fault (fs w) = Some (DumpFails e remains) ->
      completed_file (fs w') = Some remains /\
      (remains = Malformed -> read_fault (fs w) = None ->
       value_of (load_json file_path default w') = Ok (from_option id ∅ default))).
Proof.
  cbn zeta.
  destruct (save_json_outcome data file_path w) as (w' & E & Hr & Hf).
  rewrite E. change (world_of (Ok (bool_decide (write_fault (fs w) = None)), w')) with w'.
  split; [reflexivity|]. split; [|split].
  - intros Hwn Hrn. rewrite Hwn in Hf.
    unfold load_json, os_path_exists_file, open_json_load. unfold_monad.
    rewrite Hf. cbn. rewrite Hr, Hrn, Hf. reflexivity.
  - intros e Hwn. rewrite Hwn in Hf. exact Hf.
  - intros e remains Hwn. rewrite Hwn in Hf. split; [exact Hf|].
    intros -> Hrn.
    unfold load_json, os_path_exists_file, open_json_load. unfold_monad.
    rewrite Hf. cbn. rewrite Hr, Hrn, Hf. destruct default; reflexivity.
Qed.

Lemma is_airdrop_completed_stored airdrop_name (w : world P) :
  read_fault (fs w) = None ->
  value_of (is_airdrop_completed airdrop_name w)
  = Ok (bool_decide (is_Some (stored (fs w) !! airdrop_name))).
Proof.
  intros Hr. unfold is_airdrop_completed, bind.
  destruct (get_completed_airdrops_stored w Hr) as (w' & -> & _). reflexivity.
Qed.

(** X15: on a disk that does not fault, [mark_airdrop_completed] marks the
    campaign it is given and no other: afterwards [is_airdrop_completed]
    answers [True] for that name, and for every other name what it answered
    before; names are compared exactly, case included. *)
Theorem mark_then_is_completed (airdrop_name status1 other : string) (w : world P) :
  read_fault (fs w) = None ->
  write_fault (fs w) = None ->
  let w' := world_of (mark_airdrop_completed airdrop_name status1 w) in
  value_of (is_airdrop_completed airdrop_name w') = Ok true /\
  (other <> airdrop_name ->
   value_of (is_airdrop_completed other w') = value_of (is_airdrop_completed other w) /\
   stored (fs w') !! other = stored (fs w) !! other).
Proof.
  intros Hr Hw. cbn zeta.
  destruct (mark_airdrop_completed_run airdrop_name status1 w Hr Hw)
    as (w' & -> & Hr' & _ & Hs).
  change (world_of (Ok true, w')) with w'.
  rewrite !is_airdrop_completed_stored by assumption. rewrite Hs. split.
  - rewrite lookup_insert_eq. reflexivity.
  - intros Hne. rewrite lookup_insert_ne by congruence. split; reflexivity.
Qed.

(** What [_save_completed_airdrops] does, by the state of the disk. *)
Lemma save_completed_airdrops_run (w : world P) :
  exists w',
    _save_completed_airdrops w = (Ok tt, w') /\
    completed_airdrops w' = completed_airdrops w /\
    read_fault (fs w') = read_fault (fs w) /\
    completed_file (fs w') =
      (if data_dir_exists (fs w) then
         match write_fault (fs w) with
         | None => Some (JsonObject (completed_airdrops w))
         | Some (OpenFails _) => completed_file (fs w)
         | Some (DumpFails _ remains) => Some remains
         end
       else completed_file (fs w)).
Proof.
  unfold _save_completed_airdrops, open_json_dump. unfold_monad.
  destruct (write_fault (fs w)) as [[e|e remains]|] eqn:Hw;
    destruct (data_dir_exists (fs w)) eqn:Hd; cbn; rewrite ?Hw, ?Hd; cbn;
    eexists; (split; [reflexivity|]); cbn; auto.
Qed.

(** X16: the manager's own save and load round-trip, but only inside an
    existing data directory.  [_save_completed_airdrops] never raises; when
    the directory exists and the file can be written and read, an
    [AirdropManager] built afterwards starts from exactly the mapping that was
    saved; when the directory is missing it writes nothing (unlike [save_json]
    it does not create the directory) and the file is as it was. *)
Theorem save_completed_airdrops_then_init (w : world P) :
  let w' := world_of (_save_completed_airdrops w) in
  value_of (_save_completed_airdrops w) = Ok tt /\
  (write_fault (fs w) = None -> read_fault (fs w) = None ->
   data_dir_exists (fs w) = true ->
   value_of (AirdropManager_init w') = Ok tt /\
   completed_airdrops (world_of (AirdropManager_init w')) = completed_airdrops w) /\
  (data_dir_exists (fs w) = false -> completed_file (fs w') = completed_file (fs w)).
Proof.
  cbn zeta.
  destruct (save_completed_airdrops_run w) as (w' & E & Hm & Hr & Hf).
  rewrite E. change (world_of (Ok tt, w')) with w'.
  split; [reflexivity|]. split.
  - intros Hwn Hrn Hd. rewrite Hwn, Hd in Hf. cbn in Hf.
    unfold AirdropManager_init, _load_completed_airdrops, os_path_exists_file,
      open_json_load. unfold_monad.
    rewrite Hf. cbn. rewrite Hr, Hrn, Hf. cbn. split; reflexivity.
  - intros Hd. rewrite Hd in Hf. exact Hf.
Qed.

(** X17: the helper's writer and the manager's reader agree.  After
    [mark_airdrop_completed] on a disk that does not fault, an
    [AirdropManager] built afterwards holds the campaign, and its
    [select_airdrop] skips it: whenever the request resolves to a candidate of
    that name the answer is [None]. *)
Theorem marked_campaign_is_skipped (airdrop_name status1 : string)
    (requested : option string) (w w3 : world P)
    (airdrops : list airdrop) (a : airdrop) :
  read_fault (fs w) = None ->
  write_fault (fs w) = None ->
  let w1 := world_of (mark_airdrop_completed airdrop_name status1 w) in
  let w2 := world_of (AirdropManager_init w1) in
  get_available_airdrops w2 = (Ok airdrops, w3) ->
  chosen airdrops requested = Some a ->
  name a = airdrop_name ->
  is_Some (completed_airdrops w2 !! airdrop_name) /\
  value_of (select_airdrop requested w2) = Ok None.
Proof.
  intros Hr Hw. cbn zeta.
  destruct (mark_airdrop_completed_run airdrop_name status1 w Hr Hw)
    as (w1 & -> & Hr1 & _ & Hs).
  change (world_of (Ok true, w1)) with w1.
  assert (Hinit : completed_airdrops (world_of (AirdropManager_init w1)) = stored (fs w1)).
  { unfold AirdropManager_init, _load_completed_airdrops, os_path_exists_file,
      open_json_load, stored. unfold_monad.
    destruct (completed_file (fs w1)) as [[|m]|] eqn:Hc; cbn; rewrite ?Hr1, ?Hc;
      reflexivity. }
  intros Hget Hch Hname.
  assert (Hin : is_Some (completed_airdrops (world_of (AirdropManager_init w1))
                           !! airdrop_name)).
  { rewrite Hinit, Hs, lookup_insert_eq. eexists. reflexivity. }
  split; [exact Hin|].
  pose proof (preserves_get_available_airdrops same_store
                (world_of (AirdropManager_init w1))) as [Hs2 _].
  rewrite Hget in Hs2. cbn in Hs2.
  unfold select_airdrop, bind. rewrite Hget.
  apply select_among_completed with (a := a); [exact Hch|].
  rewrite Hs2, Hname. exact Hin.
Qed.

(** X18: [create_dir_if_not_exists] never raises and never touches the
    completion file; it answers [True] exactly when the directory exists
    afterwards, and a call that answered [True] makes every later call a
    no-op: nothing is written and nothing is logged. *)
Theorem create_dir_if_not_exists_outcome (dir_path : string) (w : world P) :
  exists b w',
    create_dir_if_not_exists dir_path w = (Ok b, w') /\
    b = data_dir_exists (fs w') /\
    completed_file (fs w') = completed_file (fs w) /\
    (b = true -> create_dir_if_not_exists dir_path w' = (Ok true, w')).
Proof.
  unfold create_dir_if_not_exists, os_path_exists_dir, os_makedirs. unfold_monad.
  destruct (data_dir_exists (fs w)) eqn:Hd; cbn.
  - do 2 eexists. split; [reflexivity|]. rewrite Hd. auto.
  - destruct (write_fault (fs w)) as [[e|e remains]|] eqn:Hw; cbn;
      do 2 eexists; (split; [reflexivity|]); cbn; rewrite ?Hd; auto.
    repeat split. discriminate.
Qed.

End Persistence.

Lemma save_json_load_json_witness :
  value_of (load_json Settings.COMPLETED_AIRDROPS_FILE None
              (world_of (save_json {["Beta" := Scripted.done_record]}
                           Settings.COMPLETED_AIRDROPS_FILE Scripted.alpha_on_disk)))
  = Ok {["Beta" := Scripted.done_record]} /\
  value_of (save_json {["Beta" := Scripted.done_record]}
              Settings.COMPLETED_AIRDROPS_FILE Scripted.disk_full) = Ok false /\
  value_of (load_json Settings.COMPLETED_AIRDROPS_FILE None
              (world_of (save_json {["Beta" := Scripted.done_record]}
                           Settings.COMPLETED_AIRDROPS_FILE Scripted.disk_full)))
  = Ok ∅.
Proof.
  split; [|split].
  - apply (proj1 (proj2 (save_json_load_json {["Beta" := Scripted.done_record]}
                           Settings.COMPLETED_AIRDROPS_FILE None Scripted.alpha_on_disk)));
      vm_compute; reflexivity.
  - apply (proj1 (save_json_load_json {["Beta" := Scripted.done_record]}
                    Settings.COMPLETED_AIRDROPS_FILE None Scripted.disk_full)).
  - apply (proj2 (proj2 (proj2 (proj2 (save_json_load_json
                                         {["Beta" := Scripted.done_record]}
                                         Settings.COMPLETED_AIRDROPS_FILE None
                                         Scripted.disk_full)))
                    (OtherException "No space left on device") Malformed eq_refl));
      reflexivity.
Defined.

Lemma mark_then_is_completed_witness :
  value_of (is_airdrop_completed "Beta"
              (world_of (mark_airdrop_completed "Beta" "success" Scripted.alpha_on_disk)))
  = Ok true /\
  ("AlphaDrop" <> "Beta" ->
   value_of (is_airdrop_completed "AlphaDrop"
               (world_of (mark_airdrop_completed "Beta" "success" Scripted.alpha_on_disk)))
   = value_of (is_airdrop_completed "AlphaDrop" Scripted.alpha_on_disk) /\
   stored (fs (world_of (mark_airdrop_completed "Beta" "success" Scripted.alpha_on_disk)))
     !! "AlphaDrop"
   = stored (fs Scripted.alpha_on_disk) !! "AlphaDrop").
Proof.
  apply (mark_then_is_completed "Beta" "success" "AlphaDrop" Scripted.alpha_on_disk);
    vm_compute; reflexivity.
Defined.

Lemma save_completed_airdrops_then_init_witness :
  value_of (AirdropManager_init (world_of (_save_completed_airdrops Scripted.alpha_done)))
  = Ok tt /\
  completed_airdrops
    (world_of (AirdropManager_init (world_of (_save_completed_airdrops Scripted.alpha_done))))
  = completed_airdrops Scripted.alpha_done.
Proof.
  apply (proj1 (proj2 (save_completed_airdrops_then_init Scripted.alpha_done)));
    vm_compute; reflexivity.
Defined.

Lemma marked_campaign_is_skipped_witness :
  is_Some (completed_airdrops
             (world_of (AirdropManager_init
                          (world_of (mark_airdrop_completed "AlphaDrop" "partial"
                                       Scripted.alpha_fresh))))
           !! "AlphaDrop") /\
  value_of (select_airdrop None
              (world_of (AirdropManager_init
                           (world_of (mark_airdrop_completed "AlphaDrop" "partial"
                                        Scripted.alpha_fresh)))))
  = Ok None.
Proof.
  eapply (marked_campaign_is_skipped "AlphaDrop" "partial" None Scripted.alpha_fresh).
  - vm_compute. reflexivity.
  - vm_compute. reflexivity.
  - vm_compute. reflexivity.
  - vm_compute. reflexivity.
  - vm_compute. reflexivity.
Defined.
